(** * roosterjs editor core: selection resolution and dark/light colour transform

    A shallow embedding of the two core API functions [getSelectionRangeEx]
    and [transformColor] of the editor core, with the properties of their
    specification stated over it, and of the sample site's editor component
    (Editor.tsx) with properties of its link callback, plugin list and
    lifecycle.

    Conventions of the embedding.
    - A JavaScript value that may be [null] or [undefined] is an [option];
      a DOM string map ([dataset], the attribute list, the inline style
      declaration) is a finite map keyed by strings.
    - DOM nodes are objects with identity: the document is a store from node
      references to node records, and an array of elements is a list of
      references into that store.
    - Inline style values are kept verbatim: the model does not parse CSS, so
      a value written with [setProperty] is the value read back by
      [getPropertyValue]. *)

From stdpp Require Import gmap strings list fin_maps.

Local Open Scope string_scope.
Local Open Scope list_scope.
Local Open Scope nat_scope.

(** ** JavaScript truthiness on the values the code tests *)

Module JS.

(** [!!v] for a value that is a string, [null] or [undefined]. *)
Definition truthy (v : option string) : bool :=
  match v with
  | Some s => bool_decide (s ≠ "")
  | None => false
  end.

(** [a || b] on strings, where the empty string stands for every falsy
    operand ([undefined], [null] and the empty string itself). *)
Definition or (a b : string) : string :=
  if truthy (Some a) then a else b.

(** The falsy values [undefined] and [null] read as a string operand. *)
Definition str (v : option string) : string := default "" v.

(** What a thrown exception carries; only the kind matters here. *)
Inductive Error := TypeError.

(** A computation that returns or throws. *)
Inductive Result (A : Type) :=
| Return (a : A)
| Throw (e : Error).
Arguments Return {A} a.
Arguments Throw {A} e.

End JS.

(** ** The DOM as the code sees it *)

Module DOM.

(** The part of an [HTMLElement] the colour transform reads and writes:
    the inline style declaration (value and priority per property), the
    content attributes, and [dataset]. The [data-*] attributes behind
    [dataset] never collide with [color] and [bgcolor], so the two maps
    are kept apart. *)
Record HTMLElement := mkHTMLElement {
  style : gmap string (string * string);
  attributes : gmap string string;
  dataset : gmap string string
}.

(** [element.style.getPropertyValue(name)]: the empty string when the
    property is not declared. *)
Definition getPropertyValue (element : HTMLElement) (name : string) : string :=
  match style element !! name with
  | Some (value, _) => value
  | None => ""
  end.

(** [element.style.setProperty(name, value, priority)]: an empty (or null)
    value removes the declaration; a missing priority is the empty one. *)
Definition setProperty (element : HTMLElement) (name : string)
    (value : option string) (priority : string) : HTMLElement :=
  mkHTMLElement
    (if JS.truthy value
     then <[name := (JS.str value, priority)]> (style element)
     else delete name (style element))
    (attributes element) (dataset element).

(** [element.getAttribute(name)]: [null] when absent. *)
Definition getAttribute (element : HTMLElement) (name : string) : option string :=
  attributes element !! name.

Definition setAttribute (element : HTMLElement) (name value : string) : HTMLElement :=
  mkHTMLElement (style element) (<[name := value]> (attributes element)) (dataset element).

Definition removeAttribute (element : HTMLElement) (name : string) : HTMLElement :=
  mkHTMLElement (style element) (delete name (attributes element)) (dataset element).

(** [element.dataset[key]], [element.dataset[key] = value] and
    [delete element.dataset[key]]. *)
Definition datasetGet (element : HTMLElement) (key : string) : option string :=
  dataset element !! key.

Definition datasetSet (element : HTMLElement) (key value : string) : HTMLElement :=
  mkHTMLElement (style element) (attributes element) (<[key := value]> (dataset element)).

Definition datasetDelete (element : HTMLElement) (key : string) : HTMLElement :=
  mkHTMLElement (style element) (attributes element) (delete key (dataset element)).

(** Node references and the kinds of node the code tells apart with
    [safeInstanceOf]. [OtherElement] is an element that is not an
    [HTMLElement] (SVG, MathML); [OtherNode] is text, comment, document. *)
Definition NodeRef := nat.

Inductive NodeKind :=
| HTMLElementKind
| OtherElementKind
| DocumentFragmentKind
| OtherNodeKind.

(** A node of the store. [props] is present exactly when the object has
    both a [dataset] and a [style]. *)
Record Node := mkNode {
  kind : NodeKind;
  childNodes : list NodeRef;
  props : option HTMLElement
}.

Definition isElement (k : NodeKind) : bool :=
  match k with
  | HTMLElementKind | OtherElementKind => true
  | _ => false
  end.

End DOM.

Export DOM.

(** ** roosterjs-editor-types *)

(** The four reserved [dataset] keys. The enum [DarkModeDatasetNames] is
    declared in roosterjs-editor-types, which is not among the sources at
    hand, so its four values are parameters of the development. *)
Class DarkModeDatasetNames := {
  OriginalStyleColor : string;
  OriginalAttributeColor : string;
  OriginalStyleBackgroundColor : string;
  OriginalAttributeBackgroundColor : string
}.

(** The keys are reserved: pairwise different. *)
Definition reservedKeys (names : DarkModeDatasetNames) : Prop :=
  NoDup [ OriginalStyleColor; OriginalAttributeColor;
          OriginalStyleBackgroundColor; OriginalAttributeBackgroundColor ].

Inductive ColorTransformDirection := LightToDark | DarkToLight.

(** ** transformColor: the per-element part *)

Inductive ColorAttributeEnum := CssColor | HtmlColor | CssDataSet | HtmlDataSet.

Section PerElement.

Context {names : DarkModeDatasetNames}.

Definition ColorAttributeName : list (ColorAttributeEnum → string) :=
  [ (λ key, match key with
            | CssColor => "color"
            | HtmlColor => "color"
            | CssDataSet => OriginalStyleColor
            | HtmlDataSet => OriginalAttributeColor
            end);
    (λ key, match key with
            | CssColor => "background-color"
            | HtmlColor => "bgcolor"
            | CssDataSet => OriginalStyleBackgroundColor
            | HtmlDataSet => OriginalAttributeBackgroundColor
            end) ].

Definition getValueOrDefault (value defaultValue : option string) : option string :=
  if JS.truthy value
     && bool_decide (value ≠ Some "undefined")
     && bool_decide (value ≠ Some "null")
  then value
  else defaultValue.

(** The argument of [getDarkColor]:
    [computedValues[index] || styleColor || attrColor]. *)
Definition colorToDarken (computedValues : list string) (index : nat)
    (styleColor : string) (attrColor : option string) : string :=
  JS.or (JS.or (JS.str (computedValues !! index)) styleColor) (JS.str attrColor).

(** [getComputedStyles] is the view this element has of
    roosterjs-editor-dom's function while the rest of the page is fixed:
    from the element's current state and the requested property names to
    their computed values. *)
Definition transformToLightDarkOperation
    (getComputedStyles : HTMLElement → list string → list string)
    (element : HTMLElement)
    (cssColor cssDataSet htmlColor htmlDataSet : string)
    (index : nat)
    (getDarkColor : string → string) : HTMLElement :=
  let computedValues := getComputedStyles element ["color"; "background-color"] in
  let styleColor := getPropertyValue element cssColor in
  let attrColor := getAttribute element htmlColor in
  if negb (JS.truthy (datasetGet element cssDataSet))
     && negb (JS.truthy (datasetGet element htmlDataSet))
     && (JS.truthy (Some styleColor) || JS.truthy attrColor)
     && bool_decide (styleColor ≠ "inherit")
  then
    let newColor := getDarkColor (colorToDarken computedValues index styleColor attrColor) in
    let element := setProperty element cssColor (Some newColor) "important" in
    let element := datasetSet element cssDataSet (JS.or styleColor "") in
    if JS.truthy attrColor
    then
      let element := setAttribute element htmlColor newColor in
      datasetSet element htmlDataSet (JS.str attrColor)
    else element
  else element.

Definition transformToLightModeOperation
    (element : HTMLElement)
    (cssColor cssDataSet htmlColor htmlDataSet : string) : HTMLElement :=
  let element :=
    setProperty element cssColor
      (getValueOrDefault (datasetGet element cssDataSet) (Some "")) "" in
  let element := datasetDelete element cssDataSet in
  let value := datasetGet element htmlDataSet in
  let element :=
    if JS.truthy (getValueOrDefault value None)
    then setAttribute element htmlColor (JS.str value)
    else removeAttribute element htmlColor in
  datasetDelete element htmlDataSet.

Definition transformToLightMode (element : HTMLElement) : HTMLElement :=
  let textColor := ColorAttributeName !!! 0 in
  let backgroundColor := ColorAttributeName !!! 1 in
  let element :=
    if negb (JS.truthy (datasetGet element (textColor CssDataSet)))
       && negb (JS.truthy (datasetGet element (textColor HtmlDataSet)))
    then transformToLightModeOperation element
           (textColor CssColor) (textColor CssDataSet)
           (textColor HtmlColor) (textColor HtmlDataSet)
    else element in
  if negb (JS.truthy (datasetGet element (backgroundColor CssDataSet)))
     && negb (JS.truthy (datasetGet element (backgroundColor HtmlDataSet)))
  then transformToLightModeOperation element
         (backgroundColor CssColor) (backgroundColor CssDataSet)
         (backgroundColor HtmlColor) (backgroundColor HtmlDataSet)
  else element.

Definition transformToDarkMode
    (getComputedStyles : HTMLElement → list string → list string)
    (element : HTMLElement)
    (getDarkColor : string → string) : HTMLElement :=
  let textColor := ColorAttributeName !!! 0 in
  let backgroundColor := ColorAttributeName !!! 1 in
  let element :=
    if negb (JS.truthy (datasetGet element (textColor CssDataSet)))
       && negb (JS.truthy (datasetGet element (textColor HtmlDataSet)))
    then transformToLightDarkOperation getComputedStyles element
           (textColor CssColor) (textColor CssDataSet)
           (textColor HtmlColor) (textColor HtmlDataSet)
           1 getDarkColor
    else element in
  if negb (JS.truthy (datasetGet element (backgroundColor CssDataSet)))
     && negb (JS.truthy (datasetGet element (backgroundColor HtmlDataSet)))
  then transformToLightDarkOperation getComputedStyles element
         (backgroundColor CssColor) (backgroundColor CssDataSet)
         (backgroundColor HtmlColor) (backgroundColor HtmlDataSet)
         0 getDarkColor
  else element.

End PerElement.

(** ** The document store and the DOM helpers of roosterjs-editor-dom *)

(** The page: every node object reachable by the code, by reference. *)
Abbreviation Heap := (gmap NodeRef Node).

(** A DOM [Range]; [collapsed] is the value of its getter. *)
Record Range := mkRange {
  startContainer : NodeRef;
  startOffset : nat;
  endContainer : NodeRef;
  endOffset : nat;
  collapsed : bool
}.

(** The imports from roosterjs-editor-dom. They are not part of the sources
    at hand and are taken as given capabilities over the current page. *)
Class EditorDom := {
  createRange : Heap → NodeRef → list nat → list nat → Range;
  contains : Heap → NodeRef → Range → bool;
  findClosestElementAncestor : Heap → NodeRef → NodeRef → string → option NodeRef;
  getComputedStyles : Heap → NodeRef → list string → list string
}.

(** ** roosterjs-editor-types: selection descriptors and the editor core *)

Record SelectionPath := mkSelectionPath {
  start : list nat;
  end_ : list nat
}.

Record Coordinates := mkCoordinates { x : nat; y : nat }.

Record TableSelection := mkTableSelection {
  firstCell : Coordinates;
  lastCell : Coordinates
}.

(** The tagged union [SelectionRangeEx]: the constructor is the [type] tag.
    An entry of [ranges] may be [null]. *)
Inductive SelectionRangeEx :=
| NormalSelectionRange
    (ranges : list (option Range)) (areAllCollapsed : bool)
| TableSelectionRange
    (ranges : list (option Range)) (areAllCollapsed : bool)
    (table : option NodeRef) (coordinates : option TableSelection).

Definition ranges (s : SelectionRangeEx) : list (option Range) :=
  match s with
  | NormalSelectionRange r _ => r
  | TableSelectionRange r _ _ _ => r
  end.

Definition areAllCollapsed (s : SelectionRangeEx) : bool :=
  match s with
  | NormalSelectionRange _ c => c
  | TableSelectionRange _ c _ _ => c
  end.

(** The platform selection object: [rangeCount] and [getRangeAt]. *)
Record Selection := mkSelection { liveRanges : list Range }.

Definition rangeCount (selection : Selection) : nat := length (liveRanges selection).

Definition getRangeAt (selection : Selection) (index : nat) : option Range :=
  liveRanges selection !! index.

Record Window := mkWindow { getSelection : option Selection }.

(** What a call reads of the browser besides the core: the node store and
    [contentDiv.ownerDocument.defaultView]. *)
Record Page := mkPage {
  tree : Heap;
  defaultView : option Window
}.

Record LifecycleState := mkLifecycleState {
  isDarkMode : bool;
  shadowEditFragment : option NodeRef;
  shadowEditSelectionPath : option SelectionPath;
  shadowEditTableSelectionPath : option (list SelectionPath);
  onExternalContentTransform : option (NodeRef → Heap → Heap);
  getDarkColor : string → string
}.

Record DOMEventState := mkDOMEventState {
  selectionRange : option Range;
  tableSelectionRange : option SelectionRangeEx
}.

(** [core.api.hasFocus(core)]: the capability is called on the core that
    holds it, so it is a function of the page alone. *)
Record CoreApi := mkCoreApi {
  hasFocus : Page → bool
}.

Record EditorCore := mkEditorCore {
  contentDiv : NodeRef;
  lifecycle : LifecycleState;
  domEvent : DOMEventState;
  api : CoreApi
}.

(** ** getSelectionRangeEx *)

Section GetSelectionRangeEx.

Context {dom : EditorDom}.

(** [range?.collapsed]: a missing range is not collapsed. *)
Definition collapsedOrMissing (range : option Range) : bool :=
  from_option collapsed false range.

Definition checkAllCollapsed (ranges : list (option Range)) : bool :=
  Nat.eqb (length (filter (λ range, collapsedOrMissing range = true) ranges))
          (length ranges).

Definition createNormalSelectionEx (ranges : list (option Range)) : SelectionRangeEx :=
  NormalSelectionRange ranges (checkAllCollapsed ranges).

(** Reading [ranges[0].startContainer] throws a [TypeError] when the array
    has no first entry. *)
Definition getSelectionRangeEx (page : Page) (core : EditorCore)
    : JS.Result SelectionRangeEx :=
  let result : option SelectionRangeEx := None in
  if bool_decide (is_Some (shadowEditFragment (lifecycle core))) then
    match shadowEditTableSelectionPath (lifecycle core) with
    | Some paths =>
        let ranges :=
          map (λ path, createRange (tree page) (contentDiv core) (start path) (end_ path))
              paths in
        match ranges !! 0 with
        | Some first =>
            JS.Return
              (TableSelectionRange
                 (Some <$> ranges)
                 (checkAllCollapsed (Some <$> ranges))
                 (findClosestElementAncestor (tree page)
                    (startContainer first) (contentDiv core) "table")
                 None)
        | None => JS.Throw JS.TypeError
        end
    | None =>
        let shadowRange :=
          (λ path, createRange (tree page) (contentDiv core) (start path) (end_ path))
          <$> shadowEditSelectionPath (lifecycle core) in
        JS.Return (createNormalSelectionEx [shadowRange])
    end
  else
    let cached :=
      match tableSelectionRange (domEvent core) with
      | Some tableSelection => tableSelection
      | None => createNormalSelectionEx [selectionRange (domEvent core)]
      end in
    if hasFocus (api core) page then
      match tableSelectionRange (domEvent core) with
      | Some tableSelection => JS.Return tableSelection
      | None =>
          let selection := defaultView page ≫= getSelection in
          match selection with
          | Some selection =>
              if negb (bool_decide (is_Some result)) && Nat.ltb 0 (rangeCount selection) then
                match getRangeAt selection 0 with
                | Some range =>
                    if contains (tree page) (contentDiv core) range
                    then JS.Return (createNormalSelectionEx [Some range])
                    else JS.Return cached
                | None => JS.Return cached
                end
              else JS.Return cached
          | None => JS.Return cached
          end
      end
    else JS.Return cached.

End GetSelectionRangeEx.

(** ** transformColor *)

(** What a call of [transformColor] does that can be observed in order:
    it invokes the callback and it hands elements to the transform
    function. *)
Inductive Event :=
| CallbackInvoked
| Transformed (element : NodeRef).

(** The state a call runs in: the node store and the events so far. *)
Record World := mkWorld {
  heap : Heap;
  trace : list Event
}.

Section TransformColor.

Context {names : DarkModeDatasetNames} {dom : EditorDom}.

(** [getElementsByTagName('*')] and [querySelectorAll('*')], copied into
    an array: the element descendants of a node in tree order. A tree over
    a store has depth at most the size of the store, which bounds the
    recursion. *)
Fixpoint descendantElements (depth : nat) (h : Heap) (node : NodeRef) : list NodeRef :=
  match depth with
  | 0 => []
  | S depth =>
      flat_map
        (λ child,
           (if from_option (λ n, isElement (kind n)) false (h !! child)
            then [child] else [])
           ++ descendantElements depth h child)
        (from_option childNodes [] (h !! node))
  end.

Definition getAll (h : Heap) (rootNode : NodeRef) (includeSelf : bool) : list NodeRef :=
  let result : list NodeRef := [] in
  match kind <$> h !! rootNode with
  | Some HTMLElementKind =>
      let result := if includeSelf then result ++ [rootNode] else result in
      let allChildren := descendantElements (size h) h rootNode in
      result ++ allChildren
  | Some DocumentFragmentKind =>
      let allChildren := descendantElements (size h) h rootNode in
      result ++ allChildren
  | _ => result
  end.

(** The view an element has of [getComputedStyles] in a store: the values
    computed for it when its own state is [state] and the rest of the page
    is as in [h]. *)
Definition computedStylesIn (h : Heap) (element : NodeRef) (node : Node)
    (state : HTMLElement) (styleNames : list string) : list string :=
  getComputedStyles
    (<[element := mkNode (kind node) (childNodes node) (Some state)]> h)
    element styleNames.

(** A per-element function run on the object behind a reference. *)
Definition onElement (element : NodeRef)
    (f : Node → HTMLElement → HTMLElement) (h : Heap) : Heap :=
  match h !! element with
  | Some node =>
      match props node with
      | Some state =>
          <[element := mkNode (kind node) (childNodes node) (Some (f node state))]> h
      | None => h
      end
  | None => h
  end.

(** [element?.dataset && element.style]. *)
Definition hasDatasetAndStyle (h : Heap) (element : NodeRef) : bool :=
  bool_decide (is_Some (h !! element ≫= props)).

Definition transformColor (core : EditorCore) (rootNode : NodeRef)
    (includeSelf : bool) (callback : option (Heap → Heap))
    (direction : ColorTransformDirection) (w : World) : World :=
  let elementsToTransform :=
    if isDarkMode (lifecycle core) then getAll (heap w) rootNode includeSelf else [] in
  let transformFunction : NodeRef → Heap → Heap :=
    match direction with
    | DarkToLight => λ element, onElement element (λ _, transformToLightMode)
    | LightToDark =>
        match onExternalContentTransform (lifecycle core) with
        | Some transform => transform
        | None =>
            λ element h,
              onElement element
                (λ node state,
                   transformToDarkMode (computedStylesIn h element node) state
                     (getDarkColor (lifecycle core)))
                h
        end
    end in
  let w :=
    match callback with
    | Some callback => mkWorld (callback (heap w)) (trace w ++ [CallbackInvoked])
    | None => w
    end in
  foldl
    (λ w element,
       if hasDatasetAndStyle (heap w) element
       then mkWorld (transformFunction element (heap w)) (trace w ++ [Transformed element])
       else w)
    w elementsToTransform.

End TransformColor.

(** ** Sample data *)

Module Sample.

(** The key names roosterjs uses. *)
Definition names : DarkModeDatasetNames :=
  Build_DarkModeDatasetNames "ogsc" "ogac" "ogsb" "ogab".

(** An element with an inline text colour and nothing recorded. *)
Definition redText : HTMLElement :=
  mkHTMLElement {[ "color" := ("red", "") ]} ∅ ∅.

(** An element with the colour given by its [color] attribute too. *)
Definition redFont : HTMLElement :=
  mkHTMLElement {[ "color" := ("red", "") ]} {[ "color" := "#ff0000" ]} ∅.

(** An element with inline text and background colours. *)
Definition redOnWhiteInline : HTMLElement :=
  mkHTMLElement
    {[ "color" := ("red", ""); "background-color" := ("white", "") ]} ∅ ∅.

Definition inheritText : HTMLElement :=
  mkHTMLElement
    {[ "color" := ("inherit", ""); "background-color" := ("white", "") ]} ∅ ∅.

(** Computed styles of an element the page renders red on white. *)
Definition redOnWhite (_ : HTMLElement) (_ : list string) : list string :=
  ["rgb(255, 0, 0)"; "rgb(255, 255, 255)"].

(** Computed styles of an element whose colours all come from its own
    inline style: the declared values. *)
Definition inlineComputed (element : HTMLElement) (styleNames : list string)
    : list string :=
  getPropertyValue element <$> styleNames.

(** No computed style is available (the answer for a node without a
    rendered element). *)
Definition noComputedStyles (_ : HTMLElement) (_ : list string) : list string := [].

Definition darken (color : string) : string := "dark(" +:+ color +:+ ")".

(** A small page: the editor's [div] (0) holds a [span] (1) with red text
    and a text node (2); the [span] holds a [font] element (3). *)
Definition page_tree : Heap :=
  {[ 0 := mkNode HTMLElementKind [1; 2] (Some (mkHTMLElement ∅ ∅ ∅));
     1 := mkNode HTMLElementKind [3] (Some redText);
     2 := mkNode OtherNodeKind [] None;
     3 := mkNode HTMLElementKind [] (Some redFont) ]}.

(** A callback that creates a [b] element (4) with red text and appends it
    to the editor's [div]. *)
Definition insertBold (h : Heap) : Heap :=
  <[ 0 := mkNode HTMLElementKind [1; 2; 4] (Some (mkHTMLElement ∅ ∅ ∅)) ]>
    (<[ 4 := mkNode HTMLElementKind [] (Some redText) ]> h).

(** Node paths resolved by child index; the last entry is the offset. *)
Fixpoint positionFromPath (h : Heap) (node : NodeRef) (path : list nat) : NodeRef * nat :=
  match path with
  | [] => (node, 0)
  | index :: rest =>
      match rest with
      | [] => (node, index)
      | _ =>
          match h !! node ≫= (λ n, childNodes n !! index) with
          | Some child => positionFromPath h child rest
          | None => (node, 0)
          end
      end
  end.

Definition dom : EditorDom := {|
  createRange h rootNode startPath endPath :=
    let startPosition := positionFromPath h rootNode startPath in
    let endPosition := positionFromPath h rootNode endPath in
    mkRange startPosition.1 startPosition.2 endPosition.1 endPosition.2
      (bool_decide (startPosition = endPosition));
  contains h rootNode range := bool_decide (is_Some (h !! startContainer range));
  findClosestElementAncestor _ _ _ _ := None;
  getComputedStyles h element styleNames :=
    from_option (λ state, inlineComputed state styleNames) [] (h !! element ≫= props)
|}.

Definition caretInSpan : Range := mkRange 1 0 1 0 true.
Definition wordInFont : Range := mkRange 3 0 3 1 false.

(** A focused page with a live selection, and one without a window. *)
Definition livePage : Page :=
  mkPage page_tree (Some (mkWindow (Some (mkSelection [wordInFont])))).
Definition barePage : Page := mkPage page_tree None.

Definition shadowLifecycle : LifecycleState :=
  mkLifecycleState true (Some 9)
    (Some (mkSelectionPath [0; 0] [0; 0])) None None darken.

Definition emptyTablePathLifecycle : LifecycleState :=
  mkLifecycleState true (Some 9)
    (Some (mkSelectionPath [0; 0] [0; 0])) (Some []) None darken.

Definition plainLifecycle (dark : bool) : LifecycleState :=
  mkLifecycleState dark None None None None darken.

Definition cachedTable : SelectionRangeEx :=
  TableSelectionRange [Some wordInFont] false (Some 1) None.

(** Two cores in shadow edit with contradictory cached selections. *)
Definition shadowCore : EditorCore :=
  mkEditorCore 0 shadowLifecycle
    (mkDOMEventState (Some wordInFont) (Some cachedTable))
    (mkCoreApi (λ _, true)).

Definition shadowCore' : EditorCore :=
  mkEditorCore 0 shadowLifecycle
    (mkDOMEventState None None)
    (mkCoreApi (λ _, false)).

Definition emptyTablePathCore : EditorCore :=
  mkEditorCore 0 emptyTablePathLifecycle
    (mkDOMEventState None None)
    (mkCoreApi (λ _, true)).

(** A core without focus and without any cached selection. *)
Definition blurredCore : EditorCore :=
  mkEditorCore 0 (plainLifecycle true)
    (mkDOMEventState None None)
    (mkCoreApi (λ _, false)).

Definition darkCore : EditorCore :=
  mkEditorCore 0 (plainLifecycle true)
    (mkDOMEventState None None)
    (mkCoreApi (λ _, true)).

End Sample.

(** ** Vocabulary of the statements *)

Section Vocabulary.

Context {names : DarkModeDatasetNames} {dom : EditorDom}.

Implicit Types (element : HTMLElement) (key : string).

(** The guard of [transformToLightDarkOperation]. *)
Definition darkGuard element (cssColor cssDataSet htmlColor htmlDataSet : string) : bool :=
  negb (JS.truthy (datasetGet element cssDataSet))
  && negb (JS.truthy (datasetGet element htmlDataSet))
  && (JS.truthy (Some (getPropertyValue element cssColor))
      || JS.truthy (getAttribute element htmlColor))
  && bool_decide (getPropertyValue element cssColor ≠ "inherit").

(** The two channels of the table, by name. *)
Definition darkText cs gd element : HTMLElement :=
  transformToLightDarkOperation cs element
    "color" OriginalStyleColor "color" OriginalAttributeColor 1 gd.

Definition darkBackground cs gd element : HTMLElement :=
  transformToLightDarkOperation cs element
    "background-color" OriginalStyleBackgroundColor
    "bgcolor" OriginalAttributeBackgroundColor 0 gd.

(** The guard [transformToLightMode] puts before each reset. *)
Definition lightGuard element (cssDataSet htmlDataSet : string) : bool :=
  negb (JS.truthy (datasetGet element cssDataSet))
  && negb (JS.truthy (datasetGet element htmlDataSet)).

Definition lightChannel element (channel : ColorAttributeEnum → string) : HTMLElement :=
  if lightGuard element (channel CssDataSet) (channel HtmlDataSet)
  then transformToLightModeOperation element
         (channel CssColor) (channel CssDataSet)
         (channel HtmlColor) (channel HtmlDataSet)
  else element.

(** The state of a channel after a reset with nothing recorded. *)
Definition cleared (channel : ColorAttributeEnum → string) element : Prop :=
  style element !! channel CssColor = None
  ∧ getAttribute element (channel HtmlColor) = None
  ∧ datasetGet element (channel CssDataSet) = None
  ∧ datasetGet element (channel HtmlDataSet) = None.

(** Two channels that share no property, attribute or data key. *)
Definition apart (one other : ColorAttributeEnum → string) : Prop :=
  one CssColor ≠ other CssColor
  ∧ one HtmlColor ≠ other HtmlColor
  ∧ one CssDataSet ≠ other CssDataSet
  ∧ one CssDataSet ≠ other HtmlDataSet
  ∧ one HtmlDataSet ≠ other CssDataSet
  ∧ one HtmlDataSet ≠ other HtmlDataSet.

(** Both channels have their dark guard closed. *)
Definition settled element : Prop :=
  darkGuard element "color" OriginalStyleColor "color" OriginalAttributeColor = false
  ∧ darkGuard element "background-color" OriginalStyleBackgroundColor
      "bgcolor" OriginalAttributeBackgroundColor = false.

End Vocabulary.

Section CallVocabulary.

Context {names : DarkModeDatasetNames} {dom : EditorDom}.

(** The number of ranges whose [collapsed] flag is true; a missing range
    does not count. *)
Fixpoint collapsedCount (ranges : list (option Range)) : nat :=
  match ranges with
  | [] => 0
  | Some range :: ranges => (if collapsed range then 1 else 0) + collapsedCount ranges
  | None :: ranges => collapsedCount ranges
  end.

(** The shadow edit branch of [getSelectionRangeEx], written as a function of
    the page tree, the content [div] and the lifecycle state only. *)
Definition shadowSelection (h : Heap) (contentDiv : NodeRef)
    (lifecycle : LifecycleState) : JS.Result SelectionRangeEx :=
  match shadowEditTableSelectionPath lifecycle with
  | Some paths =>
      let ranges :=
        map (λ path, createRange h contentDiv (start path) (end_ path)) paths in
      match ranges !! 0 with
      | Some first =>
          JS.Return
            (TableSelectionRange (Some <$> ranges) (checkAllCollapsed (Some <$> ranges))
               (findClosestElementAncestor h (startContainer first) contentDiv "table")
               None)
      | None => JS.Throw JS.TypeError
      end
  | None =>
      JS.Return
        (createNormalSelectionEx
           [(λ path, createRange h contentDiv (start path) (end_ path))
            <$> shadowEditSelectionPath lifecycle])
  end.

(** One turn of the [forEach] loop over the collected elements. *)
Definition transformStep (transformFunction : NodeRef → Heap → Heap)
    (w : World) (element : NodeRef) : World :=
  if hasDatasetAndStyle (heap w) element
  then mkWorld (transformFunction element (heap w)) (trace w ++ [Transformed element])
  else w.

(** A transform function that writes only to the element it is given. *)
Definition writesOwnElement (transformFunction : NodeRef → Heap → Heap) : Prop :=
  ∀ (element other : NodeRef) (h : Heap),
    other ≠ element → transformFunction element h !! other = h !! other.

(** The transform function [transformColor] selects. *)
Definition selectedTransform (core : EditorCore) (direction : ColorTransformDirection)
    : NodeRef → Heap → Heap :=
  match direction with
  | DarkToLight => λ element, onElement element (λ _, transformToLightMode)
  | LightToDark =>
      match onExternalContentTransform (lifecycle core) with
      | Some transform => transform
      | None =>
          λ element h,
            onElement element
              (λ node state,
                 transformToDarkMode (computedStylesIn h element node) state
                   (getDarkColor (lifecycle core)))
              h
      end
  end.

(** What [getAll] reads of a store: the kind and the children of each
    node. *)
Definition shape (h : Heap) : gmap NodeRef (NodeKind * list NodeRef) :=
  (λ node, (kind node, childNodes node)) <$> h.

(** The standard dark transform on the object behind a reference. *)
Definition darkOnElement (core : EditorCore) (element : NodeRef) (h : Heap) : Heap :=
  onElement element
    (λ node state,
       transformToDarkMode (computedStylesIn h element node) state
         (getDarkColor (lifecycle core)))
    h.

(** Every listed element that has a style and a dataset is settled. *)
Definition allSettled (elements : list NodeRef) (h : Heap) : Prop :=
  ∀ element state,
    element ∈ elements → h !! element ≫= props = Some state → settled state.

End CallVocabulary.

(** ** Paths in the node store *)

(** A chain of nodes, each a child of the one before, starting below
    [node]. *)
Fixpoint childPath (h : Heap) (node : NodeRef) (path : list NodeRef) : Prop :=
  match path with
  | [] => True
  | next :: rest =>
      next ∈ from_option childNodes [] (h !! node) ∧ childPath h next rest
  end.

(** The node is an element of the store. *)
Definition isElementIn (h : Heap) (node : NodeRef) : bool :=
  from_option (λ n, isElement (kind n)) false (h !! node).

(** ** The sample site's editor component (Editor.tsx) *)

Module SampleSite.

(** What Editor.tsx imports and only uses: the placeholder constant of
    BuildInPluginState, the types of the edit feature settings, of the
    features made from them, of the default format and of the undo service,
    and [getContentEditFeatures]. *)
Class Imports := {
  UrlPlaceholder : string;
  ContentEditFeatureSettings : Type;
  ContentEditFeatures : Type;
  DefaultFormat : Type;
  UndoService : Type;
  getContentEditFeatures : ContentEditFeatureSettings → ContentEditFeatures
}.

(** [s.indexOf(searchString)]: the position of the first occurrence, or
    [-1]. *)
Definition indexOf (s searchString : string) : Z :=
  match Strings.String.index 0 searchString s with
  | Some position => Z.of_nat position
  | None => (-1)%Z
  end.

(** [s.substr(start, length)] and [s.substr(start)], as the code calls
    them: with a start that is not negative. *)
Definition substr (s : string) (start length : Z) : string :=
  Strings.String.substring (Z.to_nat start) (Z.to_nat length) s.

Definition substrFrom (s : string) (start : Z) : string :=
  Strings.String.substring (Z.to_nat start)
    (Strings.String.length s - Z.to_nat start) s.

Record PickerPluginOptions := mkPickerPluginOptions {
  elementIdPrefix : string;
  changeSource : string;
  triggerCharacter : string;
  isHorizontal : bool
}.

(** The plugin objects the component creates, by class and constructor
    arguments, and the plugins it is handed. *)
Inductive EditorPlugin :=
| HyperLink (getTooltipCallback : option (string → string))
| Paste
| Watermark (watermark : string)
| ImageResize
| TableResize
| PickerPlugin (options : PickerPluginOptions)
| CustomReplacePlugin
| EntityPlugin
| SuppliedPlugin (id : nat).

Module PluginList.
Record t := mk {
  hyperlink : bool;
  paste : bool;
  watermark : bool;
  imageResize : bool;
  tableResize : bool;
  pickerPlugin : bool;
  customReplace : bool;
  entityPlugin : bool
}.
End PluginList.

Module ToggleablePlugins.
Record t := mk {
  hyperlink : option EditorPlugin;
  paste : option EditorPlugin;
  watermark : option EditorPlugin;
  imageResize : option EditorPlugin;
  tableResize : option EditorPlugin;
  pickerPlugin : option EditorPlugin;
  customReplace : option EditorPlugin;
  entityPlugin : option EditorPlugin
}.

(** [Object.keys(o).map(k => o[k])]: the values in the order the literal
    lists the keys. *)
Definition values (o : t) : list (option EditorPlugin) :=
  [ hyperlink o; paste o; watermark o; imageResize o;
    tableResize o; pickerPlugin o; customReplace o; entityPlugin o ].
End ToggleablePlugins.

Section Component.

Context {imports : Imports}.

Record BuildInPluginState := mkBuildInPluginState {
  pluginList : PluginList.t;
  contentEditFeatures : ContentEditFeatureSettings;
  defaultFormat : DefaultFormat;
  linkTitle : option string;
  watermarkText : string;
  useExperimentFeatures : bool
}.

Record EditorProps := mkEditorProps {
  plugins : list EditorPlugin;
  initState : BuildInPluginState;
  content : string;
  className : option string;
  undo : option UndoService
}.

Record EditorOptions := mkEditorOptions {
  options_plugins : list (option EditorPlugin);
  options_defaultFormat : DefaultFormat;
  options_undo : option UndoService;
  initialContent : string;
  editFeatures : ContentEditFeatures;
  enableExperimentFeatures : bool
}.

(** An editor object: what it was constructed with and whether [dispose]
    has been called on it. *)
Record RoosterJsEditor := mkRoosterJsEditor {
  editor_contentDiv : option NodeRef;
  editor_options : EditorOptions;
  disposed : bool
}.

Definition EditorRef := nat.

(** The module-level variables and the editor objects created so far. *)
Record Globals := mkGlobals {
  editorInstance : option EditorRef;
  editorInstanceToggleablePlugins : option ToggleablePlugins.t;
  editors : gmap EditorRef RoosterJsEditor
}.

(** The fields of the component instance. *)
Record Editor := mkEditor {
  props : EditorProps;
  state : BuildInPluginState;
  contentDiv : option NodeRef;
  editor : option EditorRef
}.

Definition constructor (props : EditorProps) : Editor :=
  mkEditor props (initState props) None None.

Definition getLinkCallback (this : Editor) : option (string → string) :=
  let linkTitle := linkTitle (state this) in
  if JS.truthy linkTitle then
    let index := indexOf (JS.str linkTitle) UrlPlaceholder in
    if (0 <=? index)%Z then
      let left := substr (JS.str linkTitle) 0 index in
      let right :=
        substrFrom (JS.str linkTitle)
          (index + Z.of_nat (Strings.String.length UrlPlaceholder)) in
      Some (λ url, left +:+ url +:+ right)
    else Some (λ _, JS.str linkTitle)
  else None.

(** [new RoosterJsEditor(contentDiv, options)]: a new object, different
    from every editor created before. *)
Definition newRoosterJsEditor (contentDiv : option NodeRef) (options : EditorOptions)
    (g : Globals) : EditorRef * Globals :=
  let ref := fresh (dom (editors g)) in
  (ref,
   mkGlobals (editorInstance g) (editorInstanceToggleablePlugins g)
     (<[ref := mkRoosterJsEditor contentDiv options false]> (editors g))).

Definition initEditor (this : Editor) (g : Globals) : Editor * Globals :=
  let pluginList := pluginList (state this) in
  let toggleable :=
    ToggleablePlugins.mk
      (if PluginList.hyperlink pluginList
       then Some (HyperLink (getLinkCallback this)) else None)
      (if PluginList.paste pluginList then Some Paste else None)
      (if PluginList.watermark pluginList
       then Some (Watermark (watermarkText (state this))) else None)
      (if PluginList.imageResize pluginList then Some ImageResize else None)
      (if PluginList.tableResize pluginList then Some TableResize else None)
      (if PluginList.pickerPlugin pluginList
       then Some (PickerPlugin
                    (mkPickerPluginOptions "samplepicker-" "SAMPLE_COLOR_PICKER" ":" true))
       else None)
      (if PluginList.customReplace pluginList then Some CustomReplacePlugin else None)
      (if PluginList.entityPlugin pluginList then Some EntityPlugin else None) in
  let g := mkGlobals (editorInstance g) (Some toggleable) (editors g) in
  let plugins := ToggleablePlugins.values toggleable ++ (Some <$> plugins (props this)) in
  let features := getContentEditFeatures (contentEditFeatures (state this)) in
  let defaultFormat := defaultFormat (state this) in
  let options :=
    mkEditorOptions plugins defaultFormat (undo (props this)) (content (props this))
      features (useExperimentFeatures (state this)) in
  let '(ref, g) := newRoosterJsEditor (contentDiv this) options g in
  (mkEditor (props this) (state this) (contentDiv this) (Some ref), g).

(** [editor.dispose()] on the object behind a reference. *)
Definition dispose (ref : EditorRef) (g : Globals) : Globals :=
  mkGlobals (editorInstance g) (editorInstanceToggleablePlugins g)
    (alter (λ e, mkRoosterJsEditor (editor_contentDiv e) (editor_options e) true)
       ref (editors g)).

(** Calling [dispose] on a null [this.editor] throws. *)
Definition disposeEditor (this : Editor) (g : Globals) : JS.Result (Editor * Globals) :=
  match editor this with
  | Some ref =>
      JS.Return (mkEditor (props this) (state this) (contentDiv this) None, dispose ref g)
  | None => JS.Throw JS.TypeError
  end.

Definition componentWillUpdate (this : Editor) (g : Globals)
    : JS.Result (Editor * Globals) :=
  disposeEditor this g.



Definition componentWillUnmount (this : Editor) (g : Globals)
    : JS.Result (Editor * Globals) :=
  let g :=
    if bool_decide (editorInstance g = editor this)
    then mkGlobals None (editorInstanceToggleablePlugins g) (editors g)
    else g in
  disposeEditor this g.



End Component.

End SampleSite.

(** ** Further sample data *)

Module Scenario.

(** A focused core without shadow edit that has a table selection cached. *)
Definition tableCore : EditorCore :=
  mkEditorCore 0 (Sample.plainLifecycle true)
    (mkDOMEventState (Some Sample.wordInFont) (Some Sample.cachedTable))
    (mkCoreApi (λ _, true)).

(** A focused core with a cached caret and no cached table selection. *)
Definition focusedCore : EditorCore :=
  mkEditorCore 0 (Sample.plainLifecycle true)
    (mkDOMEventState (Some Sample.caretInSpan) None)
    (mkCoreApi (λ _, true)).

(** A live selection of two ranges, the first one inside the editor. *)
Definition twoRangePage : Page :=
  mkPage Sample.page_tree
    (Some (mkWindow (Some (mkSelection [Sample.wordInFont; Sample.caretInSpan])))).

(** A live selection whose only range starts in a node that is not on the
    page. *)
Definition outsidePage : Page :=
  mkPage Sample.page_tree
    (Some (mkWindow (Some (mkSelection [mkRange 7 0 7 2 false])))).

(** Shadow edit with two recorded table cells. *)
Definition tablePathCore : EditorCore :=
  mkEditorCore 0
    (mkLifecycleState true (Some 9) None
       (Some [mkSelectionPath [0; 0] [0; 0]; mkSelectionPath [0; 0; 0] [0; 0; 1]])
       None Sample.darken)
    (mkDOMEventState None None)
    (mkCoreApi (λ _, false)).

(** The sample site with the placeholder [$url$] and no detail about edit
    features, formats and undo. *)
Definition site_imports : SampleSite.Imports := {|
  SampleSite.UrlPlaceholder := "$url$";
  SampleSite.ContentEditFeatureSettings := unit;
  SampleSite.ContentEditFeatures := unit;
  SampleSite.DefaultFormat := unit;
  SampleSite.UndoService := unit;
  SampleSite.getContentEditFeatures := id
|}.

(** A component with hyperlink, watermark and table resize switched on, one
    supplied plugin, and the given link title. *)
Definition site_component (title : option string)
    : SampleSite.Editor (imports := site_imports) :=
  SampleSite.constructor (imports := site_imports)
    (SampleSite.mkEditorProps (imports := site_imports)
       [SampleSite.SuppliedPlugin 1]
       (SampleSite.mkBuildInPluginState (imports := site_imports)
          (SampleSite.PluginList.mk true false true false true false false false)
          tt tt title "Type here" false)
       "<div>hello</div>" None None).

(** No editor created and nothing exposed yet. *)
Definition site_start : SampleSite.Globals (imports := site_imports) :=
  SampleSite.mkGlobals (imports := site_imports) None None ∅.

End Scenario.

(** * Properties of the per-element colour transform *)

Section PerElementFacts.

Context {names : DarkModeDatasetNames}.

Implicit Types (element : HTMLElement) (key : string).

Lemma truthy_or_left (a b : string) : JS.truthy (Some a) = true → JS.or a b = a.
Proof. unfold JS.or. by intros ->. Qed.

Lemma darkOperation_skip cs element cssColor cssDataSet htmlColor htmlDataSet index gd :
  darkGuard element cssColor cssDataSet htmlColor htmlDataSet = false →
  transformToLightDarkOperation cs element cssColor cssDataSet htmlColor htmlDataSet index gd
  = element.
Proof.
  unfold darkGuard, transformToLightDarkOperation. cbv zeta. by intros ->.
Qed.

(** The operation writes one style property, one attribute and two data
    keys, and nothing else. *)
Lemma darkOperation_style_frame cs element cssColor cssDataSet htmlColor htmlDataSet index gd key :
  key ≠ cssColor →
  style (transformToLightDarkOperation cs element cssColor cssDataSet htmlColor htmlDataSet index gd)
    !! key = style element !! key.
Proof.
  intros Hne. unfold transformToLightDarkOperation. cbv zeta.
  repeat (case_match; cbn; try done); by rewrite ?lookup_insert_ne, ?lookup_delete_ne.
Qed.

Lemma darkOperation_attributes_frame cs element cssColor cssDataSet htmlColor htmlDataSet index gd key :
  key ≠ htmlColor →
  attributes (transformToLightDarkOperation cs element cssColor cssDataSet htmlColor htmlDataSet index gd)
    !! key = attributes element !! key.
Proof.
  intros Hne. unfold transformToLightDarkOperation. cbv zeta.
  repeat case_match; cbn; try done; by rewrite ?lookup_insert_ne.
Qed.

Lemma darkOperation_dataset_frame cs element cssColor cssDataSet htmlColor htmlDataSet index gd key :
  key ≠ cssDataSet → key ≠ htmlDataSet →
  dataset (transformToLightDarkOperation cs element cssColor cssDataSet htmlColor htmlDataSet index gd)
    !! key = dataset element !! key.
Proof.
  intros Hne1 Hne2. unfold transformToLightDarkOperation. cbv zeta.
  repeat case_match; cbn; try done; by rewrite ?lookup_insert_ne.
Qed.

(** When the operation runs it records an original: one of the two data
    keys holds a non-empty value afterwards. *)
Lemma darkOperation_records cs element cssColor cssDataSet htmlColor htmlDataSet index gd :
  darkGuard element cssColor cssDataSet htmlColor htmlDataSet = true →
  lightGuard
    (transformToLightDarkOperation cs element cssColor cssDataSet htmlColor htmlDataSet index gd)
    cssDataSet htmlDataSet = false.
Proof.
  intros Hguard. unfold transformToLightDarkOperation. cbv zeta.
  fold (darkGuard element cssColor cssDataSet htmlColor htmlDataSet).
  rewrite Hguard.
  unfold darkGuard in Hguard.
  apply andb_true_iff in Hguard as [Hguard _].
  apply andb_true_iff in Hguard as [_ Hcolor].
  unfold lightGuard.
  destruct (JS.truthy (getAttribute element htmlColor)) eqn:Hattr.
  - unfold datasetGet, datasetSet. cbn.
    rewrite (lookup_insert_eq _ htmlDataSet).
    destruct (getAttribute element htmlColor) as [attr|]; [|done].
    cbn in *. rewrite Hattr. by rewrite andb_false_r.
  - rewrite orb_false_r in Hcolor.
    unfold datasetGet, datasetSet. cbn.
    rewrite (lookup_insert_eq _ cssDataSet).
    rewrite truthy_or_left by done. by rewrite Hcolor.
Qed.

(** Once the operation has run, its guard is closed. *)
Lemma darkOperation_settles cs element cssColor cssDataSet htmlColor htmlDataSet index gd :
  darkGuard
    (transformToLightDarkOperation cs element cssColor cssDataSet htmlColor htmlDataSet index gd)
    cssColor cssDataSet htmlColor htmlDataSet = false.
Proof.
  destruct (darkGuard element cssColor cssDataSet htmlColor htmlDataSet) eqn:Hguard.
  - pose proof (darkOperation_records cs element cssColor cssDataSet htmlColor
                  htmlDataSet index gd Hguard) as Hrecorded.
    unfold darkGuard. unfold lightGuard in Hrecorded. by rewrite Hrecorded.
  - by rewrite darkOperation_skip.
Qed.

Lemma darkGuard_ext element element' cssColor cssDataSet htmlColor htmlDataSet :
  style element' !! cssColor = style element !! cssColor →
  attributes element' !! htmlColor = attributes element !! htmlColor →
  dataset element' !! cssDataSet = dataset element !! cssDataSet →
  dataset element' !! htmlDataSet = dataset element !! htmlDataSet →
  darkGuard element' cssColor cssDataSet htmlColor htmlDataSet
  = darkGuard element cssColor cssDataSet htmlColor htmlDataSet.
Proof.
  unfold darkGuard, getPropertyValue, getAttribute, datasetGet.
  by intros -> -> -> ->.
Qed.

(** The guard [transformToDarkMode] repeats before each operation is part
    of the operation's own guard, so the function is the two operations in
    sequence. *)
Lemma darkOperation_guarded cs element cssColor cssDataSet htmlColor htmlDataSet index gd :
  (if negb (JS.truthy (dataset element !! cssDataSet))
      && negb (JS.truthy (dataset element !! htmlDataSet))
   then transformToLightDarkOperation cs element
          cssColor cssDataSet htmlColor htmlDataSet index gd
   else element)
  = transformToLightDarkOperation cs element
      cssColor cssDataSet htmlColor htmlDataSet index gd.
Proof.
  destruct (negb _ && negb _) eqn:Houter; [done|].
  rewrite darkOperation_skip; [done|].
  unfold darkGuard, datasetGet. by rewrite Houter.
Qed.

Lemma transformToDarkMode_channels cs element gd :
  transformToDarkMode cs element gd = darkBackground cs gd (darkText cs gd element).
Proof.
  unfold transformToDarkMode, darkText, darkBackground. cbn.
  by rewrite !darkOperation_guarded.
Qed.

Lemma reservedKeys_ne :
  reservedKeys names →
  OriginalStyleColor ≠ OriginalStyleBackgroundColor
  ∧ OriginalStyleColor ≠ OriginalAttributeBackgroundColor
  ∧ OriginalAttributeColor ≠ OriginalStyleBackgroundColor
  ∧ OriginalAttributeColor ≠ OriginalAttributeBackgroundColor.
Proof.
  unfold reservedKeys. rewrite !NoDup_cons, !not_elem_of_cons.
  intros ((_ & ? & ? & _) & (? & ? & _) & _). by repeat split.
Qed.

(** The background operation leaves the text channel's guard as it is. *)
Lemma darkBackground_keeps_text_guard cs gd element :
  reservedKeys names →
  darkGuard (darkBackground cs gd element)
    "color" OriginalStyleColor "color" OriginalAttributeColor
  = darkGuard element "color" OriginalStyleColor "color" OriginalAttributeColor.
Proof.
  intros (? & ? & ? & ?)%reservedKeys_ne. unfold darkBackground.
  apply darkGuard_ext.
  - by apply darkOperation_style_frame.
  - by apply darkOperation_attributes_frame.
  - by apply darkOperation_dataset_frame.
  - by apply darkOperation_dataset_frame.
Qed.

Lemma darkText_keeps_background_guard cs gd element :
  reservedKeys names →
  darkGuard (darkText cs gd element)
    "background-color" OriginalStyleBackgroundColor
    "bgcolor" OriginalAttributeBackgroundColor
  = darkGuard element "background-color" OriginalStyleBackgroundColor
      "bgcolor" OriginalAttributeBackgroundColor.
Proof.
  intros (? & ? & ? & ?)%reservedKeys_ne. unfold darkText.
  apply darkGuard_ext.
  - by apply darkOperation_style_frame.
  - by apply darkOperation_attributes_frame.
  - by apply darkOperation_dataset_frame.
  - by apply darkOperation_dataset_frame.
Qed.

Lemma transformToDarkMode_settles cs gd element :
  reservedKeys names → settled (transformToDarkMode cs element gd).
Proof.
  intros Hreserved. rewrite transformToDarkMode_channels. split.
  - rewrite darkBackground_keeps_text_guard by done. apply darkOperation_settles.
  - apply darkOperation_settles.
Qed.

Lemma transformToDarkMode_settled cs gd element :
  settled element → transformToDarkMode cs element gd = element.
Proof.
  intros [Htext Hbackground]. rewrite transformToDarkMode_channels.
  unfold darkText. rewrite darkOperation_skip by done.
  unfold darkBackground. by rewrite darkOperation_skip.
Qed.

End PerElementFacts.

Lemma sample_names_reserved : reservedKeys Sample.names.
Proof.
  unfold reservedKeys. cbn. rewrite !NoDup_cons, !not_elem_of_cons.
  repeat split; try discriminate; try apply not_elem_of_nil. apply NoDup_nil_2.
Qed.

(** * Theorems about the per-element colour transform *)

(** C3. Idempotence of the dark transform: with reserved data keys, handing
    an element to [transformToDarkMode] a second time leaves the style, the
    attributes and the dataset exactly as the first pass left them, whatever
    the computed styles and the dark colours of the second pass are. *)
Theorem transformToDarkMode_idempotent
    (names : DarkModeDatasetNames) (Hreserved : reservedKeys names)
    (cs cs' : HTMLElement → list string → list string)
    (gd gd' : string → string) (element : HTMLElement) :
  transformToDarkMode cs' (transformToDarkMode cs element gd) gd'
  = transformToDarkMode cs element gd.
Proof.
  apply transformToDarkMode_settled. by apply transformToDarkMode_settles.
Qed.

Lemma transformToDarkMode_idempotent_witness :
  reservedKeys Sample.names
  ∧ transformToDarkMode (names := Sample.names) Sample.noComputedStyles
      (transformToDarkMode (names := Sample.names) Sample.redOnWhite Sample.redFont Sample.darken)
      id
    = transformToDarkMode (names := Sample.names) Sample.redOnWhite Sample.redFont Sample.darken.
Proof.
  split; [exact sample_names_reserved|].
  exact (transformToDarkMode_idempotent Sample.names sample_names_reserved
           Sample.redOnWhite Sample.noComputedStyles Sample.darken id Sample.redFont).
Defined.

(** C9. Inherit guard: an element whose inline text colour is the literal
    [inherit] keeps its [color] style, its [color] attribute and the two
    data keys of the text channel through [transformToDarkMode], whatever
    its computed styles are. *)
Theorem transformToDarkMode_inherit_guard
    (names : DarkModeDatasetNames) (Hreserved : reservedKeys names)
    (cs : HTMLElement → list string → list string)
    (gd : string → string) (element : HTMLElement)
    (Hinherit : getPropertyValue element "color" = "inherit") :
  let element' := transformToDarkMode cs element gd in
  style element' !! "color" = style element !! "color"
  ∧ getAttribute element' "color" = getAttribute element "color"
  ∧ datasetGet element' OriginalStyleColor = datasetGet element OriginalStyleColor
  ∧ datasetGet element' OriginalAttributeColor = datasetGet element OriginalAttributeColor.
Proof.
  cbv zeta. rewrite transformToDarkMode_channels.
  assert (darkText cs gd element = element) as ->.
  { apply darkOperation_skip. unfold darkGuard. rewrite Hinherit.
    rewrite bool_decide_eq_false_2 by (intros Hne; by apply Hne).
    by rewrite andb_false_r. }
  apply reservedKeys_ne in Hreserved as (? & ? & ? & ?).
  unfold getAttribute, datasetGet, darkBackground. repeat split.
  - by apply darkOperation_style_frame.
  - by apply darkOperation_attributes_frame.
  - by apply darkOperation_dataset_frame.
  - by apply darkOperation_dataset_frame.
Qed.

Lemma transformToDarkMode_inherit_guard_witness :
  reservedKeys Sample.names
  ∧ getPropertyValue Sample.inheritText "color" = "inherit"
  ∧ let element' :=
      transformToDarkMode (names := Sample.names)
        Sample.redOnWhite Sample.inheritText Sample.darken in
    style element' !! "color" = style Sample.inheritText !! "color"
    ∧ getAttribute element' "color" = getAttribute Sample.inheritText "color"
    ∧ datasetGet element' "ogsc" = datasetGet Sample.inheritText "ogsc"
    ∧ datasetGet element' "ogac" = datasetGet Sample.inheritText "ogac".
Proof.
  split; [exact sample_names_reserved|].
  split; [reflexivity|].
  exact (transformToDarkMode_inherit_guard Sample.names sample_names_reserved
           Sample.redOnWhite Sample.darken Sample.inheritText eq_refl).
Defined.

(** C4. On an element with the inline colours red on white, whose
    computed colours are the declared ones, [transformToDarkMode] hands the
    computed [background-color] to [getDarkColor] for the text channel and
    the computed [color] for the background channel: the text colour becomes
    the dark version of white, not of red, and the background the dark
    version of the text colour just written, not of white. *)
Theorem transformToDarkMode_computed_values_crossed :
  let element' :=
    transformToDarkMode (names := Sample.names)
      Sample.inlineComputed Sample.redOnWhiteInline Sample.darken in
  Sample.inlineComputed Sample.redOnWhiteInline ["color"; "background-color"]
  = ["red"; "white"]
  ∧ getPropertyValue element' "color" = Sample.darken "white"
  ∧ getPropertyValue element' "color" ≠ Sample.darken "red"
  ∧ getPropertyValue element' "background-color" = Sample.darken (Sample.darken "white")
  ∧ getPropertyValue element' "background-color" ≠ Sample.darken "white".
Proof. by vm_compute. Qed.

(** C1. Round trip on an element with the inline text colour [red] and no
    [color] attribute: after [transformToDarkMode] and then
    [transformToLightMode] the element is still in its dark state. The
    style holds the dark colour with priority [important], not [red], and
    the data key of the original style is still set. *)
Theorem transformToLightMode_after_dark_keeps_dark :
  let dark :=
    transformToDarkMode (names := Sample.names)
      Sample.noComputedStyles Sample.redText Sample.darken in
  let back := transformToLightMode (names := Sample.names) dark in
  getPropertyValue Sample.redText "color" = "red"
  ∧ back = dark
  ∧ style back !! "color" = Some ("dark(red)", "important")
  ∧ datasetGet back "ogsc" = Some "red".
Proof. by vm_compute. Qed.

Section LightModeFacts.

Context {names : DarkModeDatasetNames}.

Implicit Types (element : HTMLElement) (key : string).

Lemma transformToLightMode_channels element :
  transformToLightMode element
  = lightChannel (lightChannel element (ColorAttributeName !!! 0))
      (ColorAttributeName !!! 1).
Proof. reflexivity. Qed.

Lemma getValueOrDefault_falsy (value defaultValue : option string) :
  JS.truthy value = false → getValueOrDefault value defaultValue = defaultValue.
Proof. unfold getValueOrDefault. by intros ->. Qed.

(** The reset removes both data keys, whatever they held. *)
Lemma lightOperation_deletes element cssColor cssDataSet htmlColor htmlDataSet :
  let element' :=
    transformToLightModeOperation element cssColor cssDataSet htmlColor htmlDataSet in
  datasetGet element' cssDataSet = None ∧ datasetGet element' htmlDataSet = None.
Proof.
  unfold transformToLightModeOperation, datasetGet. cbv zeta.
  split; case_match; cbn.
  all: destruct (decide (cssDataSet = htmlDataSet)) as [->|Hne].
  all: by rewrite ?lookup_delete_eq, ?(lookup_delete_ne _ htmlDataSet cssDataSet),
            ?lookup_delete_eq.
Qed.

(** With nothing recorded the reset clears the property and the attribute. *)
Lemma lightOperation_clears element cssColor cssDataSet htmlColor htmlDataSet :
  lightGuard element cssDataSet htmlDataSet = true →
  let element' :=
    transformToLightModeOperation element cssColor cssDataSet htmlColor htmlDataSet in
  style element' !! cssColor = None ∧ getAttribute element' htmlColor = None.
Proof.
  unfold lightGuard. intros [Hcss Hhtml]%andb_true_iff.
  apply negb_true_iff in Hcss, Hhtml.
  unfold transformToLightModeOperation, getAttribute. cbv zeta.
  rewrite (getValueOrDefault_falsy _ _ Hcss).
  assert (JS.truthy (datasetGet (datasetDelete
            (setProperty element cssColor (Some "") "") cssDataSet) htmlDataSet) = false)
    as Hvalue.
  { unfold datasetGet, datasetDelete in *. cbn.
    destruct (decide (cssDataSet = htmlDataSet)) as [->|Hne].
    - by rewrite lookup_delete_eq.
    - by rewrite lookup_delete_ne. }
  rewrite (getValueOrDefault_falsy _ _ Hvalue). cbn.
  rewrite bool_decide_eq_false_2 by (intros Hne; by apply Hne).
  by rewrite !lookup_delete_eq.
Qed.

Lemma lightChannel_style_frame element channel key :
  key ≠ channel CssColor →
  style (lightChannel element channel) !! key = style element !! key.
Proof.
  intros Hne. unfold lightChannel, transformToLightModeOperation. cbv zeta.
  repeat (case_match; cbn; try done); by rewrite ?lookup_insert_ne, ?lookup_delete_ne.
Qed.

Lemma lightChannel_attributes_frame element channel key :
  key ≠ channel HtmlColor →
  attributes (lightChannel element channel) !! key = attributes element !! key.
Proof.
  intros Hne. unfold lightChannel, transformToLightModeOperation. cbv zeta.
  repeat (case_match; cbn; try done); by rewrite ?lookup_insert_ne, ?lookup_delete_ne.
Qed.

Lemma lightChannel_dataset_frame element channel key :
  key ≠ channel CssDataSet → key ≠ channel HtmlDataSet →
  dataset (lightChannel element channel) !! key = dataset element !! key.
Proof.
  intros Hne1 Hne2. unfold lightChannel, transformToLightModeOperation. cbv zeta.
  repeat (case_match; cbn; try done); by rewrite !lookup_delete_ne.
Qed.

(** A channel with a recorded original is passed over. *)
Lemma lightChannel_recorded_skipped element channel :
  lightGuard element (channel CssDataSet) (channel HtmlDataSet) = false →
  lightChannel element channel = element.
Proof. unfold lightChannel. by intros ->. Qed.

Lemma lightChannel_clears element channel :
  lightGuard element (channel CssDataSet) (channel HtmlDataSet) = true →
  cleared channel (lightChannel element channel).
Proof.
  intros Hguard. unfold lightChannel. rewrite Hguard.
  destruct (lightOperation_clears element (channel CssColor) _ (channel HtmlColor) _ Hguard)
    as [Hstyle Hattr].
  destruct (lightOperation_deletes element (channel CssColor) (channel CssDataSet)
              (channel HtmlColor) (channel HtmlDataSet)) as [Hcss Hhtml].
  by repeat split.
Qed.

Lemma lightChannel_first_cleared element first second :
  apart first second →
  lightGuard element (first CssDataSet) (first HtmlDataSet) = true →
  cleared first (lightChannel (lightChannel element first) second).
Proof.
  intros (? & ? & ? & ? & ? & ?) Hguard.
  destruct (lightChannel_clears element first Hguard) as (? & ? & ? & ?).
  unfold cleared, getAttribute, datasetGet in *.
  rewrite lightChannel_style_frame by done.
  rewrite lightChannel_attributes_frame by done.
  rewrite (lightChannel_dataset_frame _ second (first CssDataSet)) by done.
  by rewrite (lightChannel_dataset_frame _ second (first HtmlDataSet)) by done.
Qed.

Lemma lightChannel_second_cleared element first second :
  apart first second →
  lightGuard element (second CssDataSet) (second HtmlDataSet) = true →
  cleared second (lightChannel (lightChannel element first) second).
Proof.
  intros (? & ? & ? & ? & ? & ?) Hguard.
  apply lightChannel_clears. rewrite <- Hguard.
  unfold lightGuard, datasetGet.
  rewrite (lightChannel_dataset_frame _ first (second CssDataSet)) by done.
  by rewrite (lightChannel_dataset_frame _ first (second HtmlDataSet)) by done.
Qed.

Lemma channels_apart :
  reservedKeys names → apart (ColorAttributeName !!! 0) (ColorAttributeName !!! 1).
Proof. intros (? & ? & ? & ?)%reservedKeys_ne. by repeat split. Qed.

End LightModeFacts.

Section RoundTripFacts.

Context {names : DarkModeDatasetNames}.

Implicit Types (element : HTMLElement).

(** An element with an original recorded in both channels is handed back
    as it is. *)
Lemma transformToLightMode_recorded_skipped element :
  lightGuard element OriginalStyleColor OriginalAttributeColor = false →
  lightGuard element OriginalStyleBackgroundColor OriginalAttributeBackgroundColor = false →
  transformToLightMode element = element.
Proof.
  intros Htext Hbackground. rewrite transformToLightMode_channels.
  rewrite (lightChannel_recorded_skipped element) by done.
  by rewrite lightChannel_recorded_skipped.
Qed.

(** Whenever the dark transform rewrites both channels of an element, the
    light transform that follows changes nothing. *)
Lemma transformToLightMode_after_dark_skipped cs gd element :
  reservedKeys names →
  darkGuard element "color" OriginalStyleColor "color" OriginalAttributeColor = true →
  darkGuard element "background-color" OriginalStyleBackgroundColor
    "bgcolor" OriginalAttributeBackgroundColor = true →
  transformToLightMode (transformToDarkMode cs element gd)
  = transformToDarkMode cs element gd.
Proof.
  intros Hreserved Htext Hbackground.
  pose proof (reservedKeys_ne Hreserved) as (? & ? & ? & ?).
  rewrite transformToDarkMode_channels.
  apply transformToLightMode_recorded_skipped.
  - unfold lightGuard, datasetGet, darkBackground.
    rewrite !darkOperation_dataset_frame by done.
    by apply (darkOperation_records cs element "color" _ "color" _ 1 gd).
  - apply darkOperation_records.
    by rewrite darkText_keeps_background_guard.
Qed.

End RoundTripFacts.

(** C2, as stated, fails on an element with the inline text colour [red]
    and nothing recorded: the statement promises that the text channel is
    left alone, and [transformToLightMode] removes the [color] style. *)
Lemma transformToLightMode_unrecorded_changed :
  (datasetGet Sample.redText "ogsc" = None ∧ datasetGet Sample.redText "ogac" = None)
  ∧ style Sample.redText !! "color" = Some ("red", "")
  ∧ style (transformToLightMode (names := Sample.names) Sample.redText) !! "color" = None
  ∧ transformToLightMode (names := Sample.names) Sample.redText ≠ Sample.redText.
Proof.
  repeat split; by vm_compute.
Qed.

(** C2, amended. For each of the two channels, when neither data key of
    the channel holds a non-empty value, [transformToLightMode] performs the
    reset of that channel with the empty defaults: the CSS property is
    removed from the inline style, the HTML attribute is removed, and both
    data keys are deleted. *)
Theorem transformToLightMode_resets_unrecorded
    (names : DarkModeDatasetNames) (Hreserved : reservedKeys names)
    (element : HTMLElement) (channel : ColorAttributeEnum → string)
    (Hchannel : channel ∈ ColorAttributeName)
    (Hcss : JS.truthy (datasetGet element (channel CssDataSet)) = false)
    (Hhtml : JS.truthy (datasetGet element (channel HtmlDataSet)) = false) :
  let element' := transformToLightMode element in
  style element' !! channel CssColor = None
  ∧ getPropertyValue element' (channel CssColor) = ""
  ∧ getAttribute element' (channel HtmlColor) = None
  ∧ datasetGet element' (channel CssDataSet) = None
  ∧ datasetGet element' (channel HtmlDataSet) = None.
Proof.
  cbv zeta.
  assert (lightGuard element (channel CssDataSet) (channel HtmlDataSet) = true) as Hguard.
  { unfold lightGuard. by rewrite Hcss, Hhtml. }
  assert (cleared channel (transformToLightMode element)) as (Hstyle & ? & ? & ?).
  { rewrite transformToLightMode_channels.
    apply elem_of_cons in Hchannel as [-> | Hchannel].
    - by apply lightChannel_first_cleared; [apply channels_apart|].
    - apply list_elem_of_singleton in Hchannel as ->.
      by apply lightChannel_second_cleared; [apply channels_apart|]. }
  unfold getPropertyValue. by rewrite Hstyle.
Qed.

Lemma transformToLightMode_resets_unrecorded_witness :
  reservedKeys Sample.names
  ∧ (ColorAttributeName (names := Sample.names) !!! 0)
      ∈ ColorAttributeName (names := Sample.names)
  ∧ JS.truthy (datasetGet Sample.redFont "ogsc") = false
  ∧ JS.truthy (datasetGet Sample.redFont "ogac") = false
  ∧ let element' := transformToLightMode (names := Sample.names) Sample.redFont in
    style element' !! "color" = None
    ∧ getPropertyValue element' "color" = ""
    ∧ getAttribute element' "color" = None
    ∧ datasetGet element' "ogsc" = None
    ∧ datasetGet element' "ogac" = None.
Proof.
  split; [exact sample_names_reserved|].
  split; [apply list_elem_of_here|].
  split; [reflexivity|].
  split; [reflexivity|].
  exact (transformToLightMode_resets_unrecorded Sample.names sample_names_reserved
           Sample.redFont (ColorAttributeName (names := Sample.names) !!! 0)
           (list_elem_of_here _ _) eq_refl eq_refl).
Defined.

(** * Theorems about selection resolution *)

Lemma filter_collapsed_length (ranges : list (option Range)) :
  length (filter (λ range, collapsedOrMissing range = true) ranges)
  = collapsedCount ranges.
Proof.
  induction ranges as [|[range|] ranges IH]; [done| |].
  - rewrite filter_cons. cbn. destruct (collapsed range) eqn:Hcollapsed.
    + rewrite decide_True by done. cbn. by rewrite IH.
    + rewrite decide_False by done. by rewrite IH.
  - rewrite filter_cons. cbn. rewrite decide_False by done. by rewrite IH.
Qed.

Lemma collapsedCount_le (ranges : list (option Range)) :
  collapsedCount ranges ≤ length ranges.
Proof.
  induction ranges as [|[range|] ranges IH]; cbn; [lia| |lia].
  destruct (collapsed range); lia.
Qed.

(** All counted means each one is there and collapsed. *)
Lemma collapsedCount_all (ranges : list (option Range)) :
  collapsedCount ranges = length ranges
  ↔ Forall (λ range, ∃ r, range = Some r ∧ collapsed r = true) ranges.
Proof.
  induction ranges as [|[range|] ranges IH]; cbn.
  - split; [constructor|done].
  - rewrite Forall_cons, <- IH. pose proof (collapsedCount_le ranges).
    destruct (collapsed range) eqn:Hcollapsed.
    + split; [intros ?; split; [eauto|lia]|intros [_ ?]; lia].
    + split; [lia|]. intros [(r & [= <-] & Hr) _]. congruence.
  - rewrite Forall_cons. pose proof (collapsedCount_le ranges).
    split; [lia|]. by intros [(r & ? & _) _].
Qed.

Lemma checkAllCollapsed_count (ranges : list (option Range)) :
  checkAllCollapsed ranges = true ↔ collapsedCount ranges = length ranges.
Proof.
  unfold checkAllCollapsed. rewrite filter_collapsed_length.
  apply Nat.eqb_eq.
Qed.

Section SelectionFacts.

Context {dom : EditorDom}.

(** The descriptors the resolver builds itself: every result but a cached
    table selection handed through. *)
Lemma getSelectionRangeEx_built page core descriptor :
  getSelectionRangeEx page core = JS.Return descriptor →
  is_Some (shadowEditFragment (lifecycle core))
  ∨ tableSelectionRange (domEvent core) = None →
  areAllCollapsed descriptor = checkAllCollapsed (ranges descriptor).
Proof.
  unfold getSelectionRangeEx, createNormalSelectionEx. cbv zeta.
  intros Hresult Hbuilt.
  destruct (bool_decide (is_Some (shadowEditFragment (lifecycle core)))) eqn:Hshadow.
  - repeat case_match; by simplify_eq.
  - apply bool_decide_eq_false in Hshadow.
    destruct Hbuilt as [?|Hnone]; [done|].
    rewrite Hnone in Hresult.
    repeat case_match; by simplify_eq.
Qed.

Lemma getSelectionRangeEx_shadow page core :
  is_Some (shadowEditFragment (lifecycle core)) →
  getSelectionRangeEx page core
  = shadowSelection (tree page) (contentDiv core) (lifecycle core).
Proof.
  intros Hshadow. unfold getSelectionRangeEx, shadowSelection. cbv zeta.
  by rewrite bool_decide_eq_true_2.
Qed.

(** An empty recorded table path list makes the call throw. *)
Lemma getSelectionRangeEx_empty_table_path page core :
  is_Some (shadowEditFragment (lifecycle core)) →
  shadowEditTableSelectionPath (lifecycle core) = Some [] →
  getSelectionRangeEx page core = JS.Throw JS.TypeError.
Proof.
  intros Hshadow Hpaths. rewrite getSelectionRangeEx_shadow by done.
  unfold shadowSelection. by rewrite Hpaths.
Qed.

End SelectionFacts.

(** C5. Collapsed check: [checkAllCollapsed] answers true exactly when the
    number of collapsed ranges (a missing range not counting) equals the
    number of ranges, so it is true of the empty sequence; and every
    descriptor [getSelectionRangeEx] builds carries that answer for its own
    ranges in [areAllCollapsed]. *)
Theorem areAllCollapsed_iff_count (dom : EditorDom) :
  (∀ ranges, checkAllCollapsed ranges = true ↔ collapsedCount ranges = length ranges)
  ∧ checkAllCollapsed [] = true
  ∧ (∀ page core descriptor,
       getSelectionRangeEx page core = JS.Return descriptor →
       is_Some (shadowEditFragment (lifecycle core))
       ∨ tableSelectionRange (domEvent core) = None →
       areAllCollapsed descriptor = true
       ↔ collapsedCount (ranges descriptor) = length (ranges descriptor)).
Proof.
  split; [exact checkAllCollapsed_count|].
  split; [done|].
  intros page core descriptor Hresult Hbuilt.
  rewrite (getSelectionRangeEx_built page core descriptor Hresult Hbuilt).
  apply checkAllCollapsed_count.
Qed.

Lemma areAllCollapsed_iff_count_witness :
  (checkAllCollapsed [Some Sample.caretInSpan; None] = true
   ↔ collapsedCount [Some Sample.caretInSpan; None] = 2)
  ∧ (areAllCollapsed
       (NormalSelectionRange [Some (mkRange 1 0 1 0 true)] true) = true
     ↔ collapsedCount [Some (mkRange 1 0 1 0 true)] = 1).
Proof.
  destruct (areAllCollapsed_iff_count Sample.dom) as (Hcheck & _ & Hbuilt).
  split.
  - exact (Hcheck [Some Sample.caretInSpan; None]).
  - exact (Hbuilt Sample.barePage Sample.shadowCore
             (NormalSelectionRange [Some (mkRange 1 0 1 0 true)] true)
             eq_refl (or_introl (ex_intro _ 9 eq_refl))).
Defined.

(** C6. Shadow precedence: while a shadow edit fragment is attached, two
    calls that agree on the page tree, the content [div] and the lifecycle
    state give the same result, whatever the cached selection, the cached
    table selection, the focus and the live platform selection are. *)
Theorem getSelectionRangeEx_shadow_precedence
    (dom : EditorDom) (page page' : Page) (core core' : EditorCore)
    (Hshadow : is_Some (shadowEditFragment (lifecycle core)))
    (Htree : tree page = tree page')
    (Hdiv : contentDiv core = contentDiv core')
    (Hlifecycle : lifecycle core = lifecycle core') :
  getSelectionRangeEx page core = getSelectionRangeEx page' core'.
Proof.
  rewrite !getSelectionRangeEx_shadow by (by rewrite <- ?Hlifecycle).
  by rewrite Htree, Hdiv, Hlifecycle.
Qed.

Lemma getSelectionRangeEx_shadow_precedence_witness :
  is_Some (shadowEditFragment (lifecycle Sample.shadowCore))
  ∧ domEvent Sample.shadowCore ≠ domEvent Sample.shadowCore'
  ∧ hasFocus (api Sample.shadowCore) Sample.livePage
    ≠ hasFocus (api Sample.shadowCore') Sample.barePage
  ∧ getSelectionRangeEx (dom := Sample.dom) Sample.livePage Sample.shadowCore
    = getSelectionRangeEx (dom := Sample.dom) Sample.barePage Sample.shadowCore'.
Proof.
  split; [exact (ex_intro _ 9 eq_refl)|].
  split; [discriminate|].
  split; [discriminate|].
  exact (getSelectionRangeEx_shadow_precedence Sample.dom
           Sample.livePage Sample.barePage Sample.shadowCore Sample.shadowCore'
           (ex_intro _ 9 eq_refl) eq_refl eq_refl eq_refl).
Defined.

(** C7. With a shadow edit fragment attached and an empty recorded table
    selection path list, [getSelectionRangeEx] throws a [TypeError] instead
    of returning a descriptor. *)
Theorem getSelectionRangeEx_empty_table_path_throws :
  shadowEditTableSelectionPath (lifecycle Sample.emptyTablePathCore) = Some []
  ∧ getSelectionRangeEx (dom := Sample.dom) Sample.livePage Sample.emptyTablePathCore
    = JS.Throw JS.TypeError.
Proof. split; reflexivity. Qed.

(** C8. No-focus fallback: without shadow edit, without focus and without a
    cached table selection, the result is the cached selection range, null
    or not, as the single range of a Normal descriptor. *)
Theorem getSelectionRangeEx_no_focus_fallback
    (dom : EditorDom) (page : Page) (core : EditorCore)
    (Hshadow : shadowEditFragment (lifecycle core) = None)
    (Hfocus : hasFocus (api core) page = false)
    (Htable : tableSelectionRange (domEvent core) = None) :
  getSelectionRangeEx page core
  = JS.Return
      (NormalSelectionRange [selectionRange (domEvent core)]
         (checkAllCollapsed [selectionRange (domEvent core)])).
Proof.
  unfold getSelectionRangeEx, createNormalSelectionEx. cbv zeta.
  rewrite Hshadow, Hfocus, Htable.
  by rewrite bool_decide_eq_false_2 by (by intros [? ?]).
Qed.

Lemma getSelectionRangeEx_no_focus_fallback_witness :
  shadowEditFragment (lifecycle Sample.blurredCore) = None
  ∧ hasFocus (api Sample.blurredCore) Sample.livePage = false
  ∧ tableSelectionRange (domEvent Sample.blurredCore) = None
  ∧ getSelectionRangeEx (dom := Sample.dom) Sample.livePage Sample.blurredCore
    = JS.Return (NormalSelectionRange [None] false).
Proof.
  repeat (split; [reflexivity|]).
  exact (getSelectionRangeEx_no_focus_fallback Sample.dom
           Sample.livePage Sample.blurredCore eq_refl eq_refl eq_refl).
Defined.

(** * Theorems about transformColor *)

Section TransformColorFacts.

Context {names : DarkModeDatasetNames} {dom : EditorDom}.

(** The loop hands elements of the list to the transform function, in the
    order of the list, and does nothing else that is observed. *)
Lemma forEach_trace transformFunction (elements : list NodeRef) (w : World) :
  ∃ transformed,
    sublist transformed elements
    ∧ trace (foldl (transformStep transformFunction) w elements)
      = trace w ++ (Transformed <$> transformed).
Proof.
  revert w. induction elements as [|element elements IH]; intros w; cbn.
  - exists []. split; [constructor|]. by rewrite app_nil_r.
  - destruct (IH (transformStep transformFunction w element)) as (rest & Hsub & ->).
    unfold transformStep. destruct (hasDatasetAndStyle (heap w) element).
    + exists (element :: rest). split; [by constructor|].
      cbn. by rewrite <- app_assoc.
    + exists rest. split; [by constructor|done].
Qed.

Lemma forEach_heap_frame transformFunction (elements : list NodeRef) (w : World)
    (other : NodeRef) :
  writesOwnElement transformFunction →
  other ∉ elements →
  heap (foldl (transformStep transformFunction) w elements) !! other = heap w !! other.
Proof.
  intros Hown. revert w.
  induction elements as [|element elements IH]; intros w Hother; [done|].
  apply not_elem_of_cons in Hother as [Hne Hother].
  cbn. rewrite IH by done.
  unfold transformStep. destruct (hasDatasetAndStyle (heap w) element); [|done].
  cbn. by apply Hown.
Qed.

Lemma onElement_writesOwnElement (f : NodeRef → Heap → Node → HTMLElement → HTMLElement) :
  writesOwnElement (λ element h, onElement element (f element h) h).
Proof.
  intros element other h Hne. unfold onElement.
  repeat case_match; try done. by rewrite lookup_insert_ne.
Qed.

Lemma selectedTransform_writesOwnElement core direction :
  direction = DarkToLight ∨ onExternalContentTransform (lifecycle core) = None →
  writesOwnElement (selectedTransform core direction).
Proof.
  unfold selectedTransform. intros [-> | Hnone].
  - apply (onElement_writesOwnElement (λ _ _ _, transformToLightMode)).
  - rewrite Hnone. destruct direction.
    + apply (onElement_writesOwnElement
               (λ element h node state,
                  transformToDarkMode (computedStylesIn h element node) state
                    (getDarkColor (lifecycle core)))).
    + apply (onElement_writesOwnElement (λ _ _ _, transformToLightMode)).
Qed.

Lemma transformColor_unfold core rootNode includeSelf callback direction w :
  transformColor core rootNode includeSelf (Some callback) direction w
  = foldl (transformStep (selectedTransform core direction))
      (mkWorld (callback (heap w)) (trace w ++ [CallbackInvoked]))
      (if isDarkMode (lifecycle core) then getAll (heap w) rootNode includeSelf else []).
Proof. reflexivity. Qed.

End TransformColorFacts.

(** C10. Collect, then call back, then transform. A call with a callback
    adds to the trace one callback invocation followed by transform calls
    only, whatever the mode and the direction; the elements transformed are
    among those collected from the subtree as it was before the callback,
    in their order; outside dark mode none is transformed and the store is
    what the callback left. An element that was not collected is not handed
    to the transform function even if the callback put it into the subtree,
    and with the standard transforms it stays as the callback left it. *)
Theorem transformColor_collects_before_callback
    (names : DarkModeDatasetNames) (dom : EditorDom)
    (core : EditorCore) (rootNode : NodeRef) (includeSelf : bool)
    (callback : Heap → Heap) (direction : ColorTransformDirection) (w : World) :
  let collected := getAll (heap w) rootNode includeSelf in
  let w' := transformColor core rootNode includeSelf (Some callback) direction w in
  ∃ transformed : list NodeRef,
    trace w' = trace w ++ (CallbackInvoked :: (Transformed <$> transformed))
    ∧ sublist transformed collected
    ∧ (isDarkMode (lifecycle core) = false →
       transformed = [] ∧ heap w' = callback (heap w))
    ∧ (∀ element, element ∉ collected →
         (element ∉ transformed)
         ∧ (direction = DarkToLight ∨ onExternalContentTransform (lifecycle core) = None →
            heap w' !! element = callback (heap w) !! element)).
Proof.
  cbv zeta. rewrite transformColor_unfold.
  set (elements := if isDarkMode (lifecycle core)
                   then getAll (heap w) rootNode includeSelf else []).
  set (called := mkWorld (callback (heap w)) (trace w ++ [CallbackInvoked])).
  destruct (forEach_trace (selectedTransform core direction) elements called)
    as (transformed & Hsub & Htrace).
  assert (sublist elements (getAll (heap w) rootNode includeSelf)) as Hcollected.
  { subst elements. destruct (isDarkMode (lifecycle core)); [done|apply sublist_nil_l]. }
  assert (sublist transformed (getAll (heap w) rootNode includeSelf)) as Hsub'
    by (by etrans).
  exists transformed. split; [|split; [done|split]].
  - rewrite Htrace. subst called. cbn. by rewrite <- app_assoc.
  - intros Hlight. subst elements. rewrite Hlight in *.
    by apply sublist_nil_r in Hsub.
  - intros element Hfresh. split.
    + intros Hin. apply Hfresh. by eapply elem_of_sublist.
    + intros Hstandard.
      rewrite forEach_heap_frame; [done|by apply selectedTransform_writesOwnElement|].
      intros Hin. apply Hfresh. by eapply elem_of_sublist.
Qed.

(** The callback of the sample appends a new element to the editor's [div]:
    the element is in the subtree afterwards, it is not transformed, and the
    three elements collected before are. *)
Example transformColor_inserted_element :
  let w := mkWorld Sample.page_tree [] in
  let w' :=
    transformColor (names := Sample.names) (dom := Sample.dom)
      Sample.darkCore 0 true (Some Sample.insertBold) LightToDark w in
  getAll (heap w) 0 true = [0; 1; 3]
  ∧ getAll (heap w') 0 true = [0; 1; 3; 4]
  ∧ trace w' = [CallbackInvoked; Transformed 0; Transformed 1; Transformed 3]
  ∧ (heap w' !! 4 ≫= props) = Some Sample.redText
  ∧ (heap w' !! 1 ≫= props) ≠ Some Sample.redText.
Proof. by vm_compute. Qed.

(** * Idempotence of the dark transform on a subtree *)

Section StoreIdempotence.

Context {names : DarkModeDatasetNames} {dom : EditorDom}.

Lemma onElement_shape element f (h : Heap) : shape (onElement element f h) = shape h.
Proof.
  unfold onElement, shape.
  destruct (h !! element) as [node|] eqn:Hnode; [|done].
  destruct (props node) as [state|]; [|done].
  rewrite fmap_insert. cbn. apply insert_id.
  by rewrite lookup_fmap, Hnode.
Qed.

Lemma descendantElements_shape depth (h h' : Heap) node :
  shape h = shape h' →
  descendantElements depth h node = descendantElements depth h' node.
Proof.
  intros Hshape.
  assert (∀ n, from_option (λ x, isElement (kind x)) false (h !! n)
               = from_option (λ x, isElement (kind x)) false (h' !! n)) as Hkind.
  { intros n. apply (f_equal (.!! n)) in Hshape. unfold shape in Hshape.
    rewrite !lookup_fmap in Hshape.
    destruct (h !! n) as [[]|], (h' !! n) as [[]|]; by simplify_eq/=. }
  assert (∀ n, from_option childNodes [] (h !! n)
               = from_option childNodes [] (h' !! n)) as Hchildren.
  { intros n. apply (f_equal (.!! n)) in Hshape. unfold shape in Hshape.
    rewrite !lookup_fmap in Hshape.
    destruct (h !! n) as [[]|], (h' !! n) as [[]|]; by simplify_eq/=. }
  revert node. induction depth as [|depth IH]; intros node; [done|].
  cbn. rewrite Hchildren.
  induction (from_option childNodes [] (h' !! node)) as [|child children IHc]; [done|].
  cbn. by rewrite Hkind, IH, IHc.
Qed.

Lemma getAll_shape (h h' : Heap) rootNode includeSelf :
  shape h = shape h' → getAll h rootNode includeSelf = getAll h' rootNode includeSelf.
Proof.
  intros Hshape. unfold getAll.
  assert (size h = size h') as ->.
  { rewrite <- (map_size_fmap (λ node, (kind node, childNodes node)) h),
               <- (map_size_fmap (λ node, (kind node, childNodes node)) h').
    by f_equal. }
  assert (kind <$> h !! rootNode = kind <$> h' !! rootNode) as ->.
  { apply (f_equal (.!! rootNode)) in Hshape. unfold shape in Hshape.
    rewrite !lookup_fmap in Hshape.
    destruct (h !! rootNode) as [[]|], (h' !! rootNode) as [[]|]; by simplify_eq/=. }
  by rewrite !(descendantElements_shape _ h h').
Qed.

Lemma darkOnElement_settles core element (h : Heap) state :
  reservedKeys names →
  darkOnElement core element h !! element ≫= props = Some state → settled state.
Proof.
  intros Hreserved. unfold darkOnElement, onElement.
  destruct (h !! element) as [node|] eqn:Hnode; [|by rewrite ?Hnode].
  destruct (props node) as [before|] eqn:Hprops.
  - rewrite lookup_insert_eq. cbn. intros [= <-].
    by apply transformToDarkMode_settles.
  - rewrite ?Hnode. cbn. by rewrite Hprops.
Qed.

Lemma darkOnElement_other core element other (h : Heap) :
  other ≠ element → darkOnElement core element h !! other = h !! other.
Proof.
  intros Hne.
  by apply (onElement_writesOwnElement
              (λ element h node state,
                 transformToDarkMode (computedStylesIn h element node) state
                   (getDarkColor (lifecycle core)))).
Qed.

Lemma darkOnElement_settled core element (h : Heap) :
  allSettled [element] h → darkOnElement core element h = h.
Proof.
  intros Hsettled. unfold darkOnElement, onElement.
  destruct (h !! element) as [[k children [state|]]|] eqn:Hnode; [|done..].
  cbn. rewrite transformToDarkMode_settled.
  - by apply insert_id.
  - apply (Hsettled element); [apply list_elem_of_here|]. by rewrite Hnode.
Qed.

Lemma forEach_dark_shape core (elements : list NodeRef) (w : World) :
  shape (heap (foldl (transformStep (darkOnElement core)) w elements)) = shape (heap w).
Proof.
  revert w. induction elements as [|element elements IH]; intros w; [done|].
  cbn. rewrite IH. unfold transformStep.
  destruct (hasDatasetAndStyle (heap w) element); [|done].
  apply onElement_shape.
Qed.

(** After the loop every element of the list is settled. *)
Lemma forEach_dark_settles core (elements previous : list NodeRef) (w : World) :
  reservedKeys names →
  allSettled previous (heap w) →
  allSettled (previous ++ elements)
    (heap (foldl (transformStep (darkOnElement core)) w elements)).
Proof.
  intros Hreserved. revert previous w.
  induction elements as [|element elements IH]; intros previous w Hprevious.
  - by rewrite app_nil_r.
  - cbn. rewrite cons_middle, (assoc_L (++)). apply IH.
    intros other state [Hother | ->%list_elem_of_singleton]%elem_of_app.
    + unfold transformStep.
      destruct (hasDatasetAndStyle (heap w) element) eqn:Hcapable; cbn.
      * destruct (decide (other = element)) as [->|Hne].
        -- by apply darkOnElement_settles.
        -- rewrite darkOnElement_other by done. by apply Hprevious.
      * by apply Hprevious.
    + unfold transformStep.
      destruct (hasDatasetAndStyle (heap w) element) eqn:Hcapable; cbn.
      * by apply darkOnElement_settles.
      * intros Hstate. unfold hasDatasetAndStyle in Hcapable.
        apply bool_decide_eq_false in Hcapable. destruct Hcapable. by exists state.
Qed.

(** A loop over settled elements leaves the store as it is. *)
Lemma forEach_dark_settled core (elements : list NodeRef) (w : World) :
  allSettled elements (heap w) →
  heap (foldl (transformStep (darkOnElement core)) w elements) = heap w.
Proof.
  revert w. induction elements as [|element elements IH]; intros w Hsettled; [done|].
  assert (heap (transformStep (darkOnElement core) w element) = heap w) as Hstep.
  { unfold transformStep. destruct (hasDatasetAndStyle (heap w) element); [|done].
    cbn. apply darkOnElement_settled.
    intros other state ->%list_elem_of_singleton. apply Hsettled, list_elem_of_here. }
  cbn. rewrite IH; [done|]. rewrite Hstep.
  intros other state Hother. apply Hsettled. by apply list_elem_of_further.
Qed.

Lemma transformColor_dark_unfold core rootNode includeSelf w :
  onExternalContentTransform (lifecycle core) = None →
  transformColor core rootNode includeSelf None LightToDark w
  = foldl (transformStep (darkOnElement core)) w
      (if isDarkMode (lifecycle core) then getAll (heap w) rootNode includeSelf else []).
Proof. unfold transformColor. by intros ->. Qed.

(** X15. Two dark passes over the same subtree, without a callback and
    with the standard per-element transform, leave the page as one pass
    does. *)
Lemma transformColor_dark_twice core rootNode includeSelf w :
  reservedKeys names →
  onExternalContentTransform (lifecycle core) = None →
  heap (transformColor core rootNode includeSelf None LightToDark
          (transformColor core rootNode includeSelf None LightToDark w))
  = heap (transformColor core rootNode includeSelf None LightToDark w).
Proof.
  intros Hreserved Hstandard.
  rewrite (transformColor_dark_unfold core rootNode includeSelf
             (transformColor core rootNode includeSelf None LightToDark w)) by done.
  apply forEach_dark_settled.
  rewrite transformColor_dark_unfold by done.
  destruct (isDarkMode (lifecycle core)); [|by intros ? ? ?%elem_of_nil].
  rewrite (getAll_shape _ (heap w)) by apply forEach_dark_shape.
  by apply (forEach_dark_settles core _ []); [|intros ? ? ?%elem_of_nil].
Qed.

End StoreIdempotence.

(** * Further properties of selection resolution *)

(** X1. Outside shadow edit a cached table selection is the result, with or
    without focus and whatever the live selection is. *)
Theorem getSelectionRangeEx_cached_table
    (dom : EditorDom) (page : Page) (core : EditorCore)
    (tableSelection : SelectionRangeEx)
    (Hshadow : shadowEditFragment (lifecycle core) = None)
    (Htable : tableSelectionRange (domEvent core) = Some tableSelection) :
  getSelectionRangeEx page core = JS.Return tableSelection.
Proof.
  unfold getSelectionRangeEx. cbv zeta. rewrite Hshadow, Htable.
  rewrite bool_decide_eq_false_2 by (by intros [? ?]).
  by destruct (hasFocus (api core) page).
Qed.

Lemma getSelectionRangeEx_cached_table_witness :
  getSelectionRangeEx (dom := Sample.dom) Sample.livePage Scenario.tableCore
  = JS.Return Sample.cachedTable.
Proof.
  exact (getSelectionRangeEx_cached_table Sample.dom Sample.livePage
           Scenario.tableCore Sample.cachedTable eq_refl eq_refl).
Defined.

(** X2. With focus, outside shadow edit and without a cached table
    selection, a live selection whose first range lies in the editor gives a
    Normal descriptor of that first range alone, however many ranges the
    selection has, and [areAllCollapsed] is the range's [collapsed] flag. *)
Theorem getSelectionRangeEx_live_first_range
    (dom : EditorDom) (page : Page) (core : EditorCore)
    (window : Window) (selection : Selection) (range : Range) (others : list Range)
    (Hshadow : shadowEditFragment (lifecycle core) = None)
    (Htable : tableSelectionRange (domEvent core) = None)
    (Hfocus : hasFocus (api core) page = true)
    (Hwindow : defaultView page = Some window)
    (Hselection : getSelection window = Some selection)
    (Hranges : liveRanges selection = range :: others)
    (Hinside : contains (tree page) (contentDiv core) range = true) :
  getSelectionRangeEx page core
  = JS.Return (NormalSelectionRange [Some range] (collapsed range)).
Proof.
  unfold getSelectionRangeEx, createNormalSelectionEx, rangeCount, getRangeAt. cbv zeta.
  rewrite Hshadow, Htable, Hfocus, Hwindow. cbn. rewrite Hselection, Hranges. cbn.
  rewrite Hinside. by destruct (collapsed range).
Qed.

Lemma getSelectionRangeEx_live_first_range_witness :
  getSelectionRangeEx (dom := Sample.dom) Scenario.twoRangePage Scenario.focusedCore
  = JS.Return (NormalSelectionRange [Some Sample.wordInFont] false).
Proof.
  exact (getSelectionRangeEx_live_first_range Sample.dom
           Scenario.twoRangePage Scenario.focusedCore
           (mkWindow (Some (mkSelection [Sample.wordInFont; Sample.caretInSpan])))
           (mkSelection [Sample.wordInFont; Sample.caretInSpan])
           Sample.wordInFont [Sample.caretInSpan]
           eq_refl eq_refl eq_refl eq_refl eq_refl eq_refl eq_refl).
Defined.

(** X3. Outside shadow edit and without a cached table selection, when the
    live selection has no first range inside the editor (no window, no
    selection object, no range, or a first range outside), the result is
    the cached selection range as a Normal descriptor, focused or not. *)
Theorem getSelectionRangeEx_no_live_range
    (dom : EditorDom) (page : Page) (core : EditorCore)
    (Hshadow : shadowEditFragment (lifecycle core) = None)
    (Htable : tableSelectionRange (domEvent core) = None)
    (Hlive : ∀ selection range,
        defaultView page ≫= getSelection = Some selection →
        getRangeAt selection 0 = Some range →
        contains (tree page) (contentDiv core) range = false) :
  getSelectionRangeEx page core
  = JS.Return (createNormalSelectionEx [selectionRange (domEvent core)]).
Proof.
  unfold getSelectionRangeEx. cbv zeta. rewrite Hshadow, Htable.
  rewrite bool_decide_eq_false_2 by (by intros [? ?]).
  destruct (hasFocus (api core) page); [|done].
  destruct (defaultView page ≫= getSelection) as [selection|] eqn:Hselection; [|done].
  destruct (_ && _); [|done].
  destruct (getRangeAt selection 0) as [range|] eqn:Hrange; [|done].
  by rewrite (Hlive selection range).
Qed.

Lemma getSelectionRangeEx_no_live_range_witness :
  getSelectionRangeEx (dom := Sample.dom) Scenario.outsidePage Scenario.focusedCore
  = JS.Return (NormalSelectionRange [Some Sample.caretInSpan] true).
Proof.
  refine (getSelectionRangeEx_no_live_range Sample.dom
            Scenario.outsidePage Scenario.focusedCore eq_refl eq_refl _).
  intros selection range [= <-] [= <-]. reflexivity.
Defined.

(** X4. The only exception path: [getSelectionRangeEx] throws exactly when
    a shadow edit fragment is attached and the recorded table selection path
    list is an empty list. *)
Theorem getSelectionRangeEx_throws_iff
    (dom : EditorDom) (page : Page) (core : EditorCore) :
  (∃ e, getSelectionRangeEx page core = JS.Throw e)
  ↔ is_Some (shadowEditFragment (lifecycle core))
    ∧ shadowEditTableSelectionPath (lifecycle core) = Some [].
Proof.
  split.
  - intros [e Hthrow]. unfold getSelectionRangeEx in Hthrow. cbv zeta in Hthrow.
    destruct (bool_decide (is_Some (shadowEditFragment (lifecycle core)))) eqn:Hshadow.
    + apply bool_decide_eq_true in Hshadow. split; [done|].
      destruct (shadowEditTableSelectionPath (lifecycle core)) as [[|path paths]|];
        [done|done|done].
    + repeat case_match; by simplify_eq.
  - intros [Hshadow Hpaths]. exists JS.TypeError.
    by apply getSelectionRangeEx_empty_table_path.
Qed.

(** X5. Shape of the descriptors the resolver builds itself (every result
    but a cached table selection handed through): a Normal descriptor holds
    exactly one range; a Table descriptor holds at least one range, none of
    them null, and its coordinates are null. *)
Theorem getSelectionRangeEx_built_shape
    (dom : EditorDom) (page : Page) (core : EditorCore) (descriptor : SelectionRangeEx)
    (Hresult : getSelectionRangeEx page core = JS.Return descriptor)
    (Hbuilt : is_Some (shadowEditFragment (lifecycle core))
              ∨ tableSelectionRange (domEvent core) = None) :
  match descriptor with
  | NormalSelectionRange ranges _ => length ranges = 1
  | TableSelectionRange ranges _ _ coordinates =>
      coordinates = None ∧ 0 < length ranges ∧ Forall is_Some ranges
      ∧ is_Some (shadowEditFragment (lifecycle core))
  end.
Proof.
  unfold getSelectionRangeEx, createNormalSelectionEx in Hresult. cbv zeta in Hresult.
  destruct (bool_decide (is_Some (shadowEditFragment (lifecycle core)))) eqn:Hshadow.
  - apply bool_decide_eq_true in Hshadow.
    destruct (shadowEditTableSelectionPath (lifecycle core)) as [[|path paths]|];
      simplify_eq/=; [|done].
    repeat split; [lia| |done].
    apply Forall_cons. split; [by eexists|].
    apply Forall_fmap, Forall_true. intros range. by eexists.
  - apply bool_decide_eq_false in Hshadow.
    destruct Hbuilt as [?|Hnone]; [done|].
    rewrite Hnone in Hresult.
    repeat case_match; by simplify_eq.
Qed.

Lemma getSelectionRangeEx_built_shape_witness :
  match TableSelectionRange
          [Some (mkRange 1 0 1 0 true); Some (mkRange 3 0 3 1 false)] false None None
  with
  | NormalSelectionRange ranges _ => length ranges = 1
  | TableSelectionRange ranges _ _ coordinates =>
      coordinates = None ∧ 0 < length ranges ∧ Forall is_Some ranges
      ∧ is_Some (shadowEditFragment (lifecycle Scenario.tablePathCore))
  end.
Proof.
  exact (getSelectionRangeEx_built_shape Sample.dom Sample.barePage
           Scenario.tablePathCore _ eq_refl (or_introl (ex_intro _ 9 eq_refl))).
Defined.

(** X6. The collapsed check of a concatenation is the conjunction of the
    checks of its parts. *)
Theorem checkAllCollapsed_app (front back : list (option Range)) :
  checkAllCollapsed (front ++ back)
  = checkAllCollapsed front && checkAllCollapsed back.
Proof.
  unfold checkAllCollapsed. rewrite !filter_collapsed_length.
  assert (collapsedCount (front ++ back) = collapsedCount front + collapsedCount back)
    as ->.
  { induction front as [|[range|] front IH]; cbn; [done| |done]. rewrite IH. lia. }
  rewrite length_app.
  pose proof (collapsedCount_le front). pose proof (collapsedCount_le back).
  destruct (Nat.eqb_spec (collapsedCount front) (length front)),
           (Nat.eqb_spec (collapsedCount back) (length back)); cbn.
  - apply Nat.eqb_eq. lia.
  - apply Nat.eqb_neq. lia.
  - apply Nat.eqb_neq. lia.
  - apply Nat.eqb_neq. lia.
Qed.

(** X7. The collapsed check holds exactly when every range is present and
    collapsed; a single null entry makes it fail. *)
Theorem checkAllCollapsed_Forall (ranges : list (option Range)) :
  (checkAllCollapsed ranges = true
   ↔ Forall (λ range, ∃ r, range = Some r ∧ collapsed r = true) ranges)
  ∧ (None ∈ ranges → checkAllCollapsed ranges = false).
Proof.
  assert (checkAllCollapsed ranges = true
          ↔ Forall (λ range, ∃ r, range = Some r ∧ collapsed r = true) ranges) as Hiff.
  { by rewrite checkAllCollapsed_count, collapsedCount_all. }
  split; [done|]. intros Hnull.
  apply not_true_is_false. rewrite Hiff, Forall_forall.
  intros Hall. by destruct (Hall None Hnull) as (r & ? & _).
Qed.

Lemma checkAllCollapsed_Forall_witness :
  None ∈ [Some Sample.caretInSpan; None]
  ∧ checkAllCollapsed [Some Sample.caretInSpan; None] = false.
Proof.
  assert (None ∈ [Some Sample.caretInSpan; None]) as Hnull
    by apply list_elem_of_further, list_elem_of_here.
  split; [exact Hnull|].
  exact (proj2 (checkAllCollapsed_Forall [Some Sample.caretInSpan; None]) Hnull).
Defined.

(** * Further properties of the per-element colour transform *)

(** X8. What the dark transform never writes: every inline style property
    other than [color] and [background-color], every attribute other than
    [color] and [bgcolor] and every data key other than the four reserved
    ones is left as it was. *)
Theorem transformToDarkMode_frame
    (names : DarkModeDatasetNames)
    (cs : HTMLElement → list string → list string)
    (gd : string → string) (element : HTMLElement) :
  let element' := transformToDarkMode cs element gd in
  (∀ key, key ≠ "color" → key ≠ "background-color" →
     style element' !! key = style element !! key)
  ∧ (∀ key, key ≠ "color" → key ≠ "bgcolor" →
       attributes element' !! key = attributes element !! key)
  ∧ (∀ key, key ∉ [ OriginalStyleColor; OriginalAttributeColor;
                    OriginalStyleBackgroundColor; OriginalAttributeBackgroundColor ] →
       dataset element' !! key = dataset element !! key).
Proof.
  cbv zeta. rewrite transformToDarkMode_channels. unfold darkBackground, darkText.
  repeat split.
  - intros key ? ?. by rewrite !darkOperation_style_frame by done.
  - intros key ? ?. by rewrite !darkOperation_attributes_frame by done.
  - intros key Hkey. rewrite !not_elem_of_cons in Hkey.
    destruct Hkey as (? & ? & ? & ? & _).
    by rewrite !darkOperation_dataset_frame by done.
Qed.

(** X9. What the light transform never writes: the same frame as for the
    dark transform. *)
Theorem transformToLightMode_frame
    (names : DarkModeDatasetNames) (element : HTMLElement) :
  let element' := transformToLightMode element in
  (∀ key, key ≠ "color" → key ≠ "background-color" →
     style element' !! key = style element !! key)
  ∧ (∀ key, key ≠ "color" → key ≠ "bgcolor" →
       attributes element' !! key = attributes element !! key)
  ∧ (∀ key, key ∉ [ OriginalStyleColor; OriginalAttributeColor;
                    OriginalStyleBackgroundColor; OriginalAttributeBackgroundColor ] →
       dataset element' !! key = dataset element !! key).
Proof.
  cbv zeta. rewrite transformToLightMode_channels.
  repeat split.
  - intros key ? ?. by rewrite !lightChannel_style_frame by done.
  - intros key ? ?. by rewrite !lightChannel_attributes_frame by done.
  - intros key Hkey. rewrite !not_elem_of_cons in Hkey.
    destruct Hkey as (? & ? & ? & ? & _).
    by rewrite !lightChannel_dataset_frame by done.
Qed.

(** X10. What a dark operation that runs records and writes: the CSS data
    key holds the original inline value and the inline value read back is
    the new colour, declared [important]; when the element has a non-empty
    colour attribute, the attribute becomes the new colour and the HTML
    data key holds the original attribute, otherwise neither is touched. *)
Theorem darkOperation_postcondition
    (cs : HTMLElement → list string → list string) (gd : string → string)
    (element : HTMLElement)
    (cssColor cssDataSet htmlColor htmlDataSet : string) (index : nat)
    (Hkeys : cssDataSet ≠ htmlDataSet)
    (Hguard : darkGuard element cssColor cssDataSet htmlColor htmlDataSet = true) :
  let newColor :=
    gd (colorToDarken (cs element ["color"; "background-color"]) index
          (getPropertyValue element cssColor) (getAttribute element htmlColor)) in
  let element' :=
    transformToLightDarkOperation cs element
      cssColor cssDataSet htmlColor htmlDataSet index gd in
  datasetGet element' cssDataSet = Some (getPropertyValue element cssColor)
  ∧ getPropertyValue element' cssColor = newColor
  ∧ (newColor ≠ "" → style element' !! cssColor = Some (newColor, "important"))
  ∧ (if JS.truthy (getAttribute element htmlColor)
     then getAttribute element' htmlColor = Some newColor
          ∧ datasetGet element' htmlDataSet = getAttribute element htmlColor
     else getAttribute element' htmlColor = getAttribute element htmlColor
          ∧ datasetGet element' htmlDataSet = datasetGet element htmlDataSet).
Proof.
  cbv zeta. unfold transformToLightDarkOperation. cbv zeta.
  fold (darkGuard element cssColor cssDataSet htmlColor htmlDataSet). rewrite Hguard.
  set (newColor := gd _).
  assert (JS.or (getPropertyValue element cssColor) "" = getPropertyValue element cssColor)
    as Hor.
  { unfold JS.or, JS.truthy. case_bool_decide as Hempty; [done|].
    by destruct (decide (getPropertyValue element cssColor = "")). }
  assert (∀ st : gmap string (string * string),
            match (if JS.truthy (Some newColor)
                   then <[cssColor := (JS.str (Some newColor), "important")]> st
                   else delete cssColor st) !! cssColor
            with Some (value, _) => value | None => "" end = newColor
            ∧ (newColor ≠ "" →
               (if JS.truthy (Some newColor)
                then <[cssColor := (JS.str (Some newColor), "important")]> st
                else delete cssColor st) !! cssColor = Some (newColor, "important")))
    as Hstyle.
  { intros st. cbn. destruct (decide (newColor = "")) as [Hempty|Hcolor].
    - rewrite bool_decide_eq_false_2 by (intros Hne; by apply Hne).
      by rewrite lookup_delete_eq.
    - rewrite bool_decide_eq_true_2 by done. by rewrite lookup_insert_eq. }
  destruct (JS.truthy (getAttribute element htmlColor)) eqn:Hattr.
  - destruct (getAttribute element htmlColor) as [attr|] eqn:Hvalue; [|done].
    unfold datasetGet, getAttribute, getPropertyValue, datasetSet, setAttribute,
      setProperty in *. cbn.
    rewrite lookup_insert_ne by done. rewrite !lookup_insert_eq. rewrite Hor.
    destruct (Hstyle (style element)) as [? ?]. by repeat split.
  - unfold datasetGet, getAttribute, getPropertyValue, datasetSet, setProperty in *. cbn.
    rewrite lookup_insert_eq, lookup_insert_ne by done. rewrite Hor.
    destruct (Hstyle (style element)) as [? ?]. by repeat split.
Qed.

Lemma darkOperation_postcondition_witness :
  let element' :=
    transformToLightDarkOperation Sample.inlineComputed Sample.redFont
      "color" "ogsc" "color" "ogac" 0 Sample.darken in
  datasetGet element' "ogsc" = Some "red"
  ∧ getPropertyValue element' "color" = "dark(red)"
  ∧ ("dark(red)" ≠ "" → style element' !! "color" = Some ("dark(red)", "important"))
  ∧ getAttribute element' "color" = Some "dark(red)"
  ∧ datasetGet element' "ogac" = Some "#ff0000".
Proof.
  assert ("ogsc" ≠ "ogac") as Hkeys by discriminate.
  exact (darkOperation_postcondition Sample.inlineComputed Sample.darken
           Sample.redFont "color" "ogsc" "color" "ogac" 0 Hkeys eq_refl).
Defined.


Lemma or_empty_r (a : string) : JS.or a "" = a.
Proof.
  unfold JS.or, JS.truthy. case_bool_decide as Hempty; [done|].
  by destruct (decide (a = "")).
Qed.

Lemma getValueOrDefault_meaningful (value : string) (defaultValue : option string) :
  value ≠ "" → value ≠ "undefined" → value ≠ "null" →
  getValueOrDefault (Some value) defaultValue = Some value.
Proof.
  intros ? ? ?. unfold getValueOrDefault, JS.truthy.
  by rewrite !bool_decide_eq_true_2 by congruence.
Qed.

Lemma truthy_Some (value : string) : value ≠ "" → JS.truthy (Some value) = true.
Proof. intros ?. unfold JS.truthy. by rewrite bool_decide_eq_true_2. Qed.

Lemma style_written_then_restored (st : gmap string (string * string))
    (cssColor newColor : string) (declaration : string * string) :
  st !! cssColor = Some declaration →
  <[cssColor := declaration]>
    (if JS.truthy (Some newColor)
     then <[cssColor := (JS.str (Some newColor), "important")]> st
     else delete cssColor st) = st.
Proof.
  intros Hdeclared. destruct (JS.truthy (Some newColor)).
  - rewrite insert_insert_eq. by apply insert_id.
  - rewrite insert_delete_eq. by apply insert_id.
Qed.

Lemma style_written_then_removed (st : gmap string (string * string))
    (cssColor newColor : string) :
  st !! cssColor = None →
  delete cssColor
    (if JS.truthy (Some newColor)
     then <[cssColor := (JS.str (Some newColor), "important")]> st
     else delete cssColor st) = st.
Proof.
  intros Hdeclared. destruct (JS.truthy (Some newColor)).
  - by apply delete_insert_id.
  - rewrite delete_delete_eq. by apply delete_id.
Qed.

(** X11. The two operations are inverse to each other: on an element with
    nothing recorded for the channel, whose inline declaration (if any) has
    no priority and whose inline and attribute values (if any) are neither
    empty nor the words [undefined] and [null], the light operation run
    after a dark operation that ran gives the element back exactly. *)
Theorem lightOperation_undoes_darkOperation
    (cs : HTMLElement → list string → list string) (gd : string → string)
    (element : HTMLElement)
    (cssColor cssDataSet htmlColor htmlDataSet : string) (index : nat)
    (Hkeys : cssDataSet ≠ htmlDataSet)
    (Hguard : darkGuard element cssColor cssDataSet htmlColor htmlDataSet = true)
    (Hcss : datasetGet element cssDataSet = None)
    (Hhtml : datasetGet element htmlDataSet = None)
    (Hstyle : style element !! cssColor = None
              ∨ ∃ value, style element !! cssColor = Some (value, "")
                         ∧ value ≠ "" ∧ value ≠ "undefined" ∧ value ≠ "null")
    (Hattr : getAttribute element htmlColor = None
             ∨ ∃ value, getAttribute element htmlColor = Some value
                        ∧ value ≠ "" ∧ value ≠ "undefined" ∧ value ≠ "null") :
  transformToLightModeOperation
    (transformToLightDarkOperation cs element
       cssColor cssDataSet htmlColor htmlDataSet index gd)
    cssColor cssDataSet htmlColor htmlDataSet
  = element.
Proof.
  unfold transformToLightDarkOperation. cbv zeta.
  fold (darkGuard element cssColor cssDataSet htmlColor htmlDataSet). rewrite Hguard.
  set (newColor := gd _). clearbody newColor. clear Hguard.
  rewrite or_empty_r.
  destruct element as [st attrs data].
  unfold transformToLightModeOperation, datasetGet, getAttribute,
    getPropertyValue, datasetSet, datasetDelete, setAttribute, removeAttribute,
    setProperty in *.
  cbn -[JS.truthy getValueOrDefault JS.str] in *.
  destruct Hattr as [Hattr | (attr & Hattr & ? & ? & ?)]; rewrite Hattr.
  - change (JS.truthy None) with false.
    cbn -[JS.truthy getValueOrDefault JS.str].
    rewrite lookup_insert_eq.
    rewrite lookup_delete_ne, lookup_insert_ne, Hhtml by done.
    rewrite (getValueOrDefault_falsy None None) by done.
    change (JS.truthy None) with false.
    cbn -[JS.truthy getValueOrDefault JS.str].
    rewrite (delete_id attrs) by done.
    rewrite (delete_id _ htmlDataSet)
      by (by rewrite lookup_delete_ne, lookup_insert_ne).
    rewrite delete_insert_id by done.
    f_equal.
    destruct Hstyle as [Hstyle | (value & Hstyle & ? & ? & ?)]; rewrite Hstyle.
    + rewrite (getValueOrDefault_falsy (Some "") (Some "")) by done.
      change (JS.truthy (Some "")) with false.
      by apply style_written_then_removed.
    + rewrite getValueOrDefault_meaningful by done.
      rewrite (truthy_Some value) by done.
      by apply style_written_then_restored.
  - rewrite (truthy_Some attr) by done.
    cbn -[JS.truthy getValueOrDefault JS.str].
    rewrite lookup_insert_ne, lookup_insert_eq by done.
    rewrite lookup_delete_ne, lookup_insert_eq by done.
    rewrite (getValueOrDefault_meaningful attr) by done.
    rewrite (truthy_Some attr) by done.
    cbn -[JS.truthy getValueOrDefault JS.str].
    rewrite insert_insert_eq, (insert_id attrs) by done.
    rewrite (delete_delete _ htmlDataSet cssDataSet).
    rewrite delete_insert_eq, (delete_insert_ne _ htmlDataSet cssDataSet) by done.
    rewrite delete_insert_eq, (delete_id _ htmlDataSet), (delete_id _ cssDataSet) by done.
    f_equal.
    destruct Hstyle as [Hstyle | (value & Hstyle & ? & ? & ?)]; rewrite Hstyle.
    + rewrite (getValueOrDefault_falsy (Some "") (Some "")) by done.
      change (JS.truthy (Some "")) with false.
      by apply style_written_then_removed.
    + rewrite getValueOrDefault_meaningful by done.
      rewrite (truthy_Some value) by done.
      by apply style_written_then_restored.
Qed.

Lemma lightOperation_undoes_darkOperation_witness :
  transformToLightModeOperation
    (transformToLightDarkOperation Sample.inlineComputed Sample.redFont
       "color" "ogsc" "color" "ogac" 0 Sample.darken)
    "color" "ogsc" "color" "ogac"
  = Sample.redFont.
Proof.
  assert ("ogsc" ≠ "ogac") as Hkeys by discriminate.
  assert ("red" ≠ "" ∧ "red" ≠ "undefined" ∧ "red" ≠ "null") as Hred
    by (repeat split; discriminate).
  assert ("#ff0000" ≠ "" ∧ "#ff0000" ≠ "undefined" ∧ "#ff0000" ≠ "null") as Hhex
    by (repeat split; discriminate).
  exact (lightOperation_undoes_darkOperation Sample.inlineComputed Sample.darken
           Sample.redFont "color" "ogsc" "color" "ogac" 0 Hkeys eq_refl eq_refl eq_refl
           (or_intror (ex_intro _ "red" (conj eq_refl Hred)))
           (or_intror (ex_intro _ "#ff0000" (conj eq_refl Hhex)))).
Defined.

(** X12. Whenever a dark operation runs, the colour handed to
    [getDarkColor] is not the empty string, whatever the computed values
    are. *)
Theorem darkGuard_colorToDarken_nonempty
    (element : HTMLElement)
    (cssColor cssDataSet htmlColor htmlDataSet : string)
    (computedValues : list string) (index : nat)
    (Hguard : darkGuard element cssColor cssDataSet htmlColor htmlDataSet = true) :
  colorToDarken computedValues index
    (getPropertyValue element cssColor) (getAttribute element htmlColor) ≠ "".
Proof.
  unfold darkGuard in Hguard.
  apply andb_true_iff in Hguard as [Hguard _].
  apply andb_true_iff in Hguard as [_ Hcolor].
  unfold colorToDarken, JS.or.
  destruct (JS.truthy (Some (JS.str (computedValues !! index)))) eqn:Hcomputed.
  - rewrite Hcomputed. unfold JS.truthy in Hcomputed. by apply bool_decide_eq_true in Hcomputed.
  - destruct (JS.truthy (Some (getPropertyValue element cssColor))) eqn:Hinline.
    + unfold JS.truthy in Hinline. by apply bool_decide_eq_true in Hinline.
    + cbn in Hcolor.
      destruct (getAttribute element htmlColor) as [attr|]; [|done].
      cbn in *. by apply bool_decide_eq_true in Hcolor.
Qed.

Lemma darkGuard_colorToDarken_nonempty_witness :
  colorToDarken [] 1
    (getPropertyValue Sample.redText "color") (getAttribute Sample.redText "color") ≠ "".
Proof.
  exact (darkGuard_colorToDarken_nonempty Sample.redText
           "color" "ogsc" "color" "ogac" [] 1 eq_refl).
Defined.

Section LightModeAgain.

Context {names : DarkModeDatasetNames}.

Implicit Types (element : HTMLElement).

(** On a cleared channel the reset changes nothing. *)
Lemma lightChannel_cleared_id element channel :
  cleared channel element → lightChannel element channel = element.
Proof.
  intros (Hstyle & Hattr & Hcss & Hhtml). unfold lightChannel.
  destruct (lightGuard _ _ _); [|done].
  destruct element as [st attrs data].
  unfold transformToLightModeOperation, datasetGet, getAttribute,
    datasetDelete, setAttribute, removeAttribute, setProperty in *.
  cbn -[JS.truthy getValueOrDefault JS.str] in *.
  rewrite Hcss. rewrite (getValueOrDefault_falsy None (Some "")) by done.
  change (JS.truthy (Some "")) with false.
  assert (delete (channel CssDataSet) data !! channel HtmlDataSet = None) as ->.
  { rewrite lookup_delete. by case_decide. }
  rewrite (getValueOrDefault_falsy None None) by done.
  change (JS.truthy None) with false.
  cbn -[JS.truthy getValueOrDefault JS.str].
  by rewrite !delete_id by (by rewrite ?delete_id).
Qed.

Lemma lightChannel_idempotent element channel :
  lightChannel (lightChannel element channel) channel = lightChannel element channel.
Proof.
  destruct (lightGuard element (channel CssDataSet) (channel HtmlDataSet)) eqn:Hguard.
  - by apply lightChannel_cleared_id, lightChannel_clears.
  - rewrite (lightChannel_recorded_skipped element) by done.
    by apply lightChannel_recorded_skipped.
Qed.

Lemma lightChannel_keeps_other_guard element first second :
  apart first second →
  lightGuard (lightChannel element second) (first CssDataSet) (first HtmlDataSet)
  = lightGuard element (first CssDataSet) (first HtmlDataSet).
Proof.
  intros (? & ? & ? & ? & ? & ?). unfold lightGuard, datasetGet.
  rewrite (lightChannel_dataset_frame _ second (first CssDataSet)) by done.
  by rewrite (lightChannel_dataset_frame _ second (first HtmlDataSet)) by done.
Qed.

Lemma lightChannel_first_again element first second :
  apart first second →
  lightChannel (lightChannel (lightChannel element first) second) first
  = lightChannel (lightChannel element first) second.
Proof.
  intros Hapart.
  destruct (lightGuard element (first CssDataSet) (first HtmlDataSet)) eqn:Hguard.
  - by apply lightChannel_cleared_id, lightChannel_first_cleared.
  - rewrite (lightChannel_recorded_skipped element first) by done.
    apply lightChannel_recorded_skipped.
    by rewrite lightChannel_keeps_other_guard.
Qed.

Lemma lightChannel_first_kept element first second :
  apart first second →
  lightGuard element (first CssDataSet) (first HtmlDataSet) = false →
  let element' := lightChannel (lightChannel element first) second in
  style element' !! first CssColor = style element !! first CssColor
  ∧ getAttribute element' (first HtmlColor) = getAttribute element (first HtmlColor)
  ∧ datasetGet element' (first CssDataSet) = datasetGet element (first CssDataSet)
  ∧ datasetGet element' (first HtmlDataSet) = datasetGet element (first HtmlDataSet).
Proof.
  intros (? & ? & ? & ? & ? & ?) Hguard. cbv zeta.
  rewrite (lightChannel_recorded_skipped element first) by done.
  unfold getAttribute, datasetGet.
  rewrite lightChannel_style_frame by done.
  rewrite lightChannel_attributes_frame by done.
  rewrite (lightChannel_dataset_frame _ second (first CssDataSet)) by done.
  by rewrite (lightChannel_dataset_frame _ second (first HtmlDataSet)) by done.
Qed.

Lemma lightChannel_second_kept element first second :
  apart first second →
  lightGuard element (second CssDataSet) (second HtmlDataSet) = false →
  let element' := lightChannel (lightChannel element first) second in
  style element' !! second CssColor = style element !! second CssColor
  ∧ getAttribute element' (second HtmlColor) = getAttribute element (second HtmlColor)
  ∧ datasetGet element' (second CssDataSet) = datasetGet element (second CssDataSet)
  ∧ datasetGet element' (second HtmlDataSet) = datasetGet element (second HtmlDataSet).
Proof.
  intros (? & ? & ? & ? & ? & ?) Hguard. cbv zeta.
  assert (lightGuard (lightChannel element first)
            (second CssDataSet) (second HtmlDataSet) = false) as Hguard'.
  { rewrite <- Hguard. unfold lightGuard, datasetGet.
    rewrite (lightChannel_dataset_frame _ first (second CssDataSet)) by done.
    by rewrite (lightChannel_dataset_frame _ first (second HtmlDataSet)) by done. }
  rewrite (lightChannel_recorded_skipped (lightChannel element first) second) by done.
  unfold getAttribute, datasetGet.
  rewrite lightChannel_style_frame by done.
  rewrite lightChannel_attributes_frame by done.
  rewrite (lightChannel_dataset_frame _ first (second CssDataSet)) by done.
  by rewrite (lightChannel_dataset_frame _ first (second HtmlDataSet)) by done.
Qed.

End LightModeAgain.

(** X13. The light transform is idempotent: with reserved data keys, a
    second [transformToLightMode] leaves the element as the first one left
    it. *)
Theorem transformToLightMode_idempotent
    (names : DarkModeDatasetNames) (Hreserved : reservedKeys names)
    (element : HTMLElement) :
  transformToLightMode (transformToLightMode element) = transformToLightMode element.
Proof.
  rewrite !transformToLightMode_channels.
  rewrite (lightChannel_first_again element
             (ColorAttributeName !!! 0) (ColorAttributeName !!! 1))
    by (by apply channels_apart).
  apply lightChannel_idempotent.
Qed.

Lemma transformToLightMode_idempotent_witness :
  reservedKeys Sample.names
  ∧ transformToLightMode (names := Sample.names)
      (transformToLightMode (names := Sample.names) Sample.redFont)
    = transformToLightMode (names := Sample.names) Sample.redFont.
Proof.
  split; [exact sample_names_reserved|].
  exact (transformToLightMode_idempotent Sample.names sample_names_reserved
           Sample.redFont).
Defined.

(** X14. A channel that has an original recorded (a non-empty value under
    either of its data keys) is passed over by the light transform: its CSS
    property, its attribute and both its data keys stay as they are. *)
Theorem transformToLightMode_recorded_channel_kept
    (names : DarkModeDatasetNames) (Hreserved : reservedKeys names)
    (element : HTMLElement) (channel : ColorAttributeEnum → string)
    (Hchannel : channel ∈ ColorAttributeName)
    (Hrecorded : JS.truthy (datasetGet element (channel CssDataSet))
                 || JS.truthy (datasetGet element (channel HtmlDataSet)) = true) :
  let element' := transformToLightMode element in
  style element' !! channel CssColor = style element !! channel CssColor
  ∧ getAttribute element' (channel HtmlColor) = getAttribute element (channel HtmlColor)
  ∧ datasetGet element' (channel CssDataSet) = datasetGet element (channel CssDataSet)
  ∧ datasetGet element' (channel HtmlDataSet) = datasetGet element (channel HtmlDataSet).
Proof.
  cbv zeta.
  assert (lightGuard element (channel CssDataSet) (channel HtmlDataSet) = false) as Hguard.
  { unfold lightGuard. rewrite <- negb_orb. by rewrite Hrecorded. }
  pose proof (channels_apart Hreserved) as Hapart.
  rewrite transformToLightMode_channels.
  apply elem_of_cons in Hchannel as [-> | Hchannel].
  - exact (lightChannel_first_kept element
             (ColorAttributeName !!! 0) (ColorAttributeName !!! 1) Hapart Hguard).
  - apply list_elem_of_singleton in Hchannel as ->.
    exact (lightChannel_second_kept element
             (ColorAttributeName !!! 0) (ColorAttributeName !!! 1) Hapart Hguard).
Qed.

Lemma transformToLightMode_recorded_channel_kept_witness :
  let dark :=
    transformToDarkMode (names := Sample.names)
      Sample.inlineComputed Sample.redFont Sample.darken in
  let element' := transformToLightMode (names := Sample.names) dark in
  style element' !! "color" = style dark !! "color"
  ∧ getAttribute element' "color" = getAttribute dark "color"
  ∧ datasetGet element' "ogsc" = datasetGet dark "ogsc"
  ∧ datasetGet element' "ogac" = datasetGet dark "ogac".
Proof.
  exact (transformToLightMode_recorded_channel_kept Sample.names sample_names_reserved
           (transformToDarkMode (names := Sample.names)
              Sample.inlineComputed Sample.redFont Sample.darken)
           (ColorAttributeName (names := Sample.names) !!! 0)
           (list_elem_of_here _ _) eq_refl).
Defined.

(** * Further properties of transformColor *)

Lemma transformColor_dark_twice_witness :
  reservedKeys Sample.names
  ∧ onExternalContentTransform (lifecycle Sample.darkCore) = None
  ∧ heap (transformColor (names := Sample.names) (dom := Sample.dom)
            Sample.darkCore 0 true None LightToDark
            (transformColor (names := Sample.names) (dom := Sample.dom)
               Sample.darkCore 0 true None LightToDark (mkWorld Sample.page_tree [])))
    = heap (transformColor (names := Sample.names) (dom := Sample.dom)
              Sample.darkCore 0 true None LightToDark (mkWorld Sample.page_tree [])).
Proof.
  split; [exact sample_names_reserved|]. split; [reflexivity|].
  exact (transformColor_dark_twice (names := Sample.names) (dom := Sample.dom)
           Sample.darkCore 0 true (mkWorld Sample.page_tree [])
           sample_names_reserved eq_refl).
Defined.

Section StoreFacts.

Context {names : DarkModeDatasetNames} {dom : EditorDom}.

Lemma forEach_shape transformFunction (elements : list NodeRef) (w : World) :
  (∀ element h, shape (transformFunction element h) = shape h) →
  shape (heap (foldl (transformStep transformFunction) w elements)) = shape (heap w).
Proof.
  intros Hshape. revert w.
  induction elements as [|element elements IH]; intros w; [done|].
  cbn. rewrite IH. unfold transformStep.
  destruct (hasDatasetAndStyle (heap w) element); [|done]. apply Hshape.
Qed.

Lemma selectedTransform_shape core direction element (h : Heap) :
  direction = DarkToLight ∨ onExternalContentTransform (lifecycle core) = None →
  shape (selectedTransform core direction element h) = shape h.
Proof.
  unfold selectedTransform. intros [-> | Hnone]; [apply onElement_shape|].
  rewrite Hnone. destruct direction; apply onElement_shape.
Qed.

Lemma transformColor_loop core rootNode includeSelf callback direction w :
  transformColor core rootNode includeSelf callback direction w
  = foldl (transformStep (selectedTransform core direction))
      (match callback with
       | Some callback => mkWorld (callback (heap w)) (trace w ++ [CallbackInvoked])
       | None => w
       end)
      (if isDarkMode (lifecycle core) then getAll (heap w) rootNode includeSelf else []).
Proof. reflexivity. Qed.

(** What the descendant walk collects is an element and lies on a child
    path from the node. *)
Lemma descendantElements_sound depth (h : Heap) node element :
  element ∈ descendantElements depth h node →
  isElementIn h element = true
  ∧ ∃ path, childPath h node path ∧ last path = Some element.
Proof.
  revert node. induction depth as [|depth IH]; intros node; cbn; [by intros ?%elem_of_nil|].
  intros Hin. apply list_elem_of_In, in_flat_map in Hin as (child & Hchild & Hin).
  apply list_elem_of_In in Hchild. apply list_elem_of_In, elem_of_app in Hin as [Hself|Hbelow].
  - fold (isElementIn h child) in Hself.
    destruct (isElementIn h child) eqn:Helement; [|by apply elem_of_nil in Hself].
    apply list_elem_of_singleton in Hself as ->.
    split; [done|]. by exists [child].
  - destruct (IH child Hbelow) as (Helement & path & Hpath & Hlast).
    split; [done|]. exists (child :: path). split; [done|].
    destruct path; [done|]. by rewrite last_cons, Hlast.
Qed.

(** Every element at the end of a child path no longer than the depth of
    the walk is collected. *)
Lemma descendantElements_complete depth (h : Heap) node path element :
  childPath h node path →
  last path = Some element →
  length path ≤ depth →
  isElementIn h element = true →
  element ∈ descendantElements depth h node.
Proof.
  revert node depth. induction path as [|next rest IH]; intros node depth; [done|].
  intros [Hchild Hrest] Hlast Hlength Helement.
  destruct depth as [|depth]; [cbn in Hlength; lia|].
  cbn. apply list_elem_of_In, in_flat_map. exists next.
  split; [by apply list_elem_of_In|]. apply list_elem_of_In, elem_of_app.
  destruct rest as [|next' rest].
  - left. cbn in Hlast. injection Hlast as ->.
    fold (isElementIn h element). rewrite Helement. apply list_elem_of_here.
  - right. apply IH; [done|exact Hlast|cbn in *; lia|done].
Qed.

(** The loop passes over an element that has no style or dataset. *)
Lemma forEach_skips transformFunction (elements : list NodeRef) (w : World)
    (incapable : NodeRef) :
  writesOwnElement transformFunction →
  heap w !! incapable ≫= props = None →
  ∃ transformed,
    trace (foldl (transformStep transformFunction) w elements)
    = trace w ++ (Transformed <$> transformed)
    ∧ (incapable ∉ transformed)
    ∧ heap (foldl (transformStep transformFunction) w elements) !! incapable
      = heap w !! incapable.
Proof.
  intros Hown. revert w.
  induction elements as [|element elements IH]; intros w Hnone; cbn.
  - exists []. split; [by rewrite app_nil_r|]. split; [apply not_elem_of_nil|done].
  - assert (heap (transformStep transformFunction w element) !! incapable
            = heap w !! incapable) as Hstep.
    { unfold transformStep.
      destruct (hasDatasetAndStyle (heap w) element) eqn:Hcapable; [|done].
      cbn. apply Hown. intros ->.
      unfold hasDatasetAndStyle in Hcapable. apply bool_decide_eq_true in Hcapable.
      rewrite Hnone in Hcapable. by destruct Hcapable. }
    destruct (IH (transformStep transformFunction w element)) as (rest & -> & Hrest & ->);
      [by rewrite Hstep|].
    rewrite Hstep. unfold transformStep.
    destruct (hasDatasetAndStyle (heap w) element) eqn:Hcapable.
    + exists (element :: rest). cbn. rewrite <- app_assoc. split; [done|].
      split; [|done]. apply not_elem_of_cons. split; [|done]. intros ->.
      unfold hasDatasetAndStyle in Hcapable. apply bool_decide_eq_true in Hcapable.
      rewrite Hnone in Hcapable. by destruct Hcapable.
    + by exists rest.
Qed.

End StoreFacts.

(** X16. With the standard per-element transforms, [transformColor] never
    adds, removes, moves or retypes a node: the kind and the children of
    every node are what the callback left. *)
Theorem transformColor_keeps_shape
    (names : DarkModeDatasetNames) (dom : EditorDom)
    (core : EditorCore) (rootNode : NodeRef) (includeSelf : bool)
    (callback : option (Heap → Heap)) (direction : ColorTransformDirection) (w : World)
    (Hstandard : direction = DarkToLight
                 ∨ onExternalContentTransform (lifecycle core) = None) :
  shape (heap (transformColor core rootNode includeSelf callback direction w))
  = shape (from_option (λ callback, callback (heap w)) (heap w) callback).
Proof.
  rewrite transformColor_loop.
  rewrite forEach_shape by (intros; by apply selectedTransform_shape).
  by destruct callback.
Qed.

Lemma transformColor_keeps_shape_witness :
  shape (heap (transformColor (names := Sample.names) (dom := Sample.dom)
                 Sample.darkCore 0 true (Some Sample.insertBold) LightToDark
                 (mkWorld Sample.page_tree [])))
  = shape (Sample.insertBold Sample.page_tree).
Proof.
  exact (transformColor_keeps_shape Sample.names Sample.dom Sample.darkCore 0 true
           (Some Sample.insertBold) LightToDark (mkWorld Sample.page_tree [])
           (or_intror eq_refl)).
Defined.

(** X17. What [getAll] collects: every collected reference is an element
    node of the store, and it is the root itself (only with [includeSelf])
    or the end of a chain of children starting at the root. *)
Theorem getAll_sound
    (h : Heap) (rootNode : NodeRef) (includeSelf : bool) (element : NodeRef)
    (Hcollected : element ∈ getAll h rootNode includeSelf) :
  isElementIn h element = true
  ∧ ((element = rootNode ∧ includeSelf = true)
     ∨ ∃ path, childPath h rootNode path ∧ last path = Some element).
Proof.
  unfold getAll in Hcollected. cbv zeta in Hcollected.
  destruct (h !! rootNode) as [node|] eqn:Hnode; cbn in Hcollected;
    [|by apply elem_of_nil in Hcollected].
  destruct (kind node) eqn:Hkind; try by apply elem_of_nil in Hcollected.
  - apply elem_of_app in Hcollected as [Hself | Hbelow].
    + destruct includeSelf; [|by apply elem_of_nil in Hself].
      apply list_elem_of_singleton in Hself as ->.
      split; [|by left]. unfold isElementIn. rewrite Hnode. cbn. by rewrite Hkind.
    + destruct (descendantElements_sound _ _ _ _ Hbelow) as [? ?]. by split; [|right].
  - destruct (descendantElements_sound _ _ _ _ Hcollected) as [? ?]. by split; [|right].
Qed.

Lemma getAll_sound_witness :
  3 ∈ getAll Sample.page_tree 0 false
  ∧ isElementIn Sample.page_tree 3 = true
  ∧ ((3 = 0 ∧ false = true)
     ∨ ∃ path, childPath Sample.page_tree 0 path ∧ last path = Some 3).
Proof.
  assert (3 ∈ getAll Sample.page_tree 0 false) as Hcollected.
  { apply list_elem_of_further, list_elem_of_here. }
  split; [exact Hcollected|].
  exact (getAll_sound Sample.page_tree 0 false 3 Hcollected).
Defined.

(** X18. What [getAll] does not miss: below a root that is an HTML element
    or a document fragment, every element at the end of a chain of children
    no longer than the number of nodes in the store is collected. *)
Theorem getAll_complete
    (h : Heap) (rootNode : NodeRef) (includeSelf : bool)
    (path : list NodeRef) (element : NodeRef)
    (Hroot : kind <$> h !! rootNode = Some HTMLElementKind
             ∨ kind <$> h !! rootNode = Some DocumentFragmentKind)
    (Hpath : childPath h rootNode path)
    (Hlast : last path = Some element)
    (Hlength : length path ≤ size h)
    (Helement : isElementIn h element = true) :
  element ∈ getAll h rootNode includeSelf.
Proof.
  pose proof (descendantElements_complete (size h) h rootNode path element
                Hpath Hlast Hlength Helement) as Hbelow.
  unfold getAll. cbv zeta.
  destruct Hroot as [-> | ->]; [|done].
  apply elem_of_app. by right.
Qed.

Lemma getAll_complete_witness :
  3 ∈ getAll Sample.page_tree 0 false.
Proof.
  refine (getAll_complete Sample.page_tree 0 false [1; 3] 3
            (or_introl eq_refl) _ eq_refl _ eq_refl).
  - split; [apply list_elem_of_here|]. split; [apply list_elem_of_here|exact I].
  - vm_compute. lia.
Defined.

(** X19. With the standard per-element transforms, a node that has no
    style or no dataset once the callback has run is never handed to the
    transform function and is left as the callback left it, collected or
    not. *)
Theorem transformColor_skips_incapable
    (names : DarkModeDatasetNames) (dom : EditorDom)
    (core : EditorCore) (rootNode : NodeRef) (includeSelf : bool)
    (callback : option (Heap → Heap)) (direction : ColorTransformDirection) (w : World)
    (node : NodeRef)
    (Hstandard : direction = DarkToLight
                 ∨ onExternalContentTransform (lifecycle core) = None)
    (Hincapable :
       from_option (λ callback, callback (heap w)) (heap w) callback !! node ≫= props
       = None)
    (Hbefore : Transformed node ∉ trace w) :
  let w' := transformColor core rootNode includeSelf callback direction w in
  (Transformed node ∉ trace w')
  ∧ heap w' !! node
    = from_option (λ callback, callback (heap w)) (heap w) callback !! node.
Proof.
  cbv zeta. rewrite transformColor_loop.
  set (called := match callback with
                 | Some callback => mkWorld (callback (heap w)) (trace w ++ [CallbackInvoked])
                 | None => w
                 end).
  assert (heap called = from_option (λ callback, callback (heap w)) (heap w) callback)
    as Hheap by (subst called; by destruct callback).
  assert (Transformed node ∉ trace called) as Hcalled.
  { subst called. destruct callback; [|done]. cbn.
    rewrite elem_of_app, list_elem_of_singleton. by intros [?|?]. }
  rewrite <- Hheap in Hincapable |- *.
  destruct (forEach_skips (selectedTransform core direction)
              (if isDarkMode (lifecycle core)
               then getAll (heap w) rootNode includeSelf else [])
              called node (selectedTransform_writesOwnElement core direction Hstandard)
              Hincapable) as (transformed & -> & Hnot & ->).
  split; [|done].
  rewrite elem_of_app, list_elem_of_fmap. intros [?|(other & [= <-] & ?)]; done.
Qed.

Lemma transformColor_skips_incapable_witness :
  let w := mkWorld Sample.page_tree [] in
  let w' :=
    transformColor (names := Sample.names) (dom := Sample.dom)
      Sample.darkCore 0 true (Some Sample.insertBold) LightToDark w in
  (Transformed 2 ∉ trace w')
  ∧ heap w' !! 2 = Sample.insertBold Sample.page_tree !! 2.
Proof.
  exact (transformColor_skips_incapable Sample.names Sample.dom Sample.darkCore 0 true
           (Some Sample.insertBold) LightToDark (mkWorld Sample.page_tree []) 2
           (or_intror eq_refl) eq_refl (not_elem_of_nil _)).
Defined.

(** * Properties of the sample site's editor component *)

Module SampleSiteFacts.

Import SampleSite.

Lemma substring_all (s : string) :
  Strings.String.substring 0 (Strings.String.length s) s = s.
Proof. induction s as [|a s IH]; cbn; [done|]. by rewrite IH. Qed.

Lemma substring_split (s : string) (n : nat) :
  Strings.String.substring 0 n s
  +:+ Strings.String.substring n (Strings.String.length s - n) s = s.
Proof.
  revert n. induction s as [|a s IH]; intros [|n]; cbn.
  - done.
  - done.
  - by rewrite substring_all.
  - exact (f_equal (String a) (IH n)).
Qed.

(** A string with an occurrence at a position is the part before, the
    occurrence and the part after. *)
Lemma occurrence_split (s pattern : string) (position : nat) :
  Strings.String.substring position (Strings.String.length pattern) s = pattern →
  s = Strings.String.substring 0 position s +:+ pattern
      +:+ Strings.String.substring (position + Strings.String.length pattern)
            (Strings.String.length s - (position + Strings.String.length pattern)) s.
Proof.
  revert s. induction position as [|position IH]; intros s Hoccurs.
  - pose proof (substring_split s (Strings.String.length pattern)) as Hsplit.
    rewrite Hoccurs in Hsplit.
    assert (Strings.String.substring 0 0 s = "") as -> by by destruct s.
    exact (eq_sym Hsplit).
  - destruct s as [|a s].
    + cbn in Hoccurs. by rewrite <- Hoccurs.
    + exact (f_equal (String a) (IH s Hoccurs)).
Qed.

Lemma substring_prefix (pattern rest : string) :
  Strings.String.substring 0 (Strings.String.length pattern) (pattern +:+ rest) = pattern.
Proof.
  induction pattern as [|a pattern IH].
  - by destruct rest.
  - exact (f_equal (String a) IH).
Qed.

Lemma substring_occurrence (left pattern right : string) :
  Strings.String.substring (Strings.String.length left) (Strings.String.length pattern)
    (left +:+ pattern +:+ right) = pattern.
Proof.
  induction left as [|a left IH]; [exact (substring_prefix pattern right)|exact IH].
Qed.

(** A pattern that [index] does not find does not occur. *)
Lemma index_None_no_occurrence (s pattern : string) :
  Strings.String.index 0 pattern s = None →
  pattern ≠ "" →
  ∀ left right, s ≠ left +:+ pattern +:+ right.
Proof.
  intros Hindex Hpattern left right ->.
  apply (Strings.String.index_correct3 0 (Strings.String.length left) _ _ Hindex);
    [done|lia|].
  apply substring_occurrence.
Qed.

Section LinkCallback.

Context {imports : Imports}.

(** X20. A link title that holds the placeholder gives a callback that puts
    the URL in place of the first occurrence: the title is [left], the
    placeholder and [right], no occurrence starts before the end of [left],
    and the callback answers [left], the URL and [right]. *)
Theorem getLinkCallback_first_occurrence
    (this : Editor) (title : string)
    (Htitle : linkTitle (state this) = Some title)
    (Hnonempty : title ≠ "")
    (Hfound : (0 ≤ indexOf title UrlPlaceholder)%Z) :
  ∃ (position : nat) (left right : string) (callback : string → string),
    getLinkCallback this = Some callback
    ∧ indexOf title UrlPlaceholder = Z.of_nat position
    ∧ left = Strings.String.substring 0 position title
    ∧ title = left +:+ UrlPlaceholder +:+ right
    ∧ (∀ earlier, earlier < position →
         Strings.String.substring earlier (Strings.String.length UrlPlaceholder) title
         ≠ UrlPlaceholder)
    ∧ ∀ url, callback url = left +:+ url +:+ right.
Proof.
  unfold indexOf in Hfound.
  destruct (Strings.String.index 0 UrlPlaceholder title) as [position|] eqn:Hindex; [|lia].
  exists position, (Strings.String.substring 0 position title),
    (Strings.String.substring (position + Strings.String.length UrlPlaceholder)
       (Strings.String.length title - (position + Strings.String.length UrlPlaceholder))
       title).
  eexists. split; [|split; [|split; [done|split; [|split]]]].
  - unfold getLinkCallback. cbv zeta. rewrite Htitle.
    rewrite (truthy_Some title) by done. change (JS.str (Some title)) with title.
    unfold indexOf. rewrite Hindex.
    rewrite (proj2 (Z.leb_le 0 (Z.of_nat position))) by lia. reflexivity.
  - unfold indexOf. by rewrite Hindex.
  - apply occurrence_split. by eapply Strings.String.index_correct1.
  - intros earlier Hearlier.
    apply (Strings.String.index_correct2 _ _ _ _ Hindex); [lia|done].
  - intros url. unfold substr, substrFrom. cbn.
    by rewrite <- Nat2Z.inj_add, !Nat2Z.id.
Qed.

(** X21. There is a callback exactly when the link title is not empty, and
    the callback applied to the placeholder itself answers the title. *)
Theorem getLinkCallback_placeholder_identity (this : Editor) :
  (is_Some (getLinkCallback this) ↔ JS.truthy (linkTitle (state this)) = true)
  ∧ ∀ callback,
      getLinkCallback this = Some callback →
      callback UrlPlaceholder = JS.str (linkTitle (state this)).
Proof.
  unfold getLinkCallback. cbv zeta.
  destruct (JS.truthy (linkTitle (state this))) eqn:Htruthy.
  - destruct (linkTitle (state this)) as [title|] eqn:Htitle; [|done].
    change (JS.str (Some title)) with title. unfold indexOf.
    destruct (Strings.String.index 0 UrlPlaceholder title) as [position|] eqn:Hindex.
    + rewrite (proj2 (Z.leb_le 0 (Z.of_nat position))) by lia.
      split; [by split; [|eexists]|]. intros callback [= <-].
      unfold substr, substrFrom. cbn. rewrite <- Nat2Z.inj_add, !Nat2Z.id.
      symmetry. apply occurrence_split. by eapply Strings.String.index_correct1.
    + cbn. split; [by split; [|eexists]|]. by intros callback [= <-].
  - split; [|done]. split; [by intros [? ?]|done].
Qed.

(** X22. A link title that does not hold the placeholder gives the constant
    callback: every URL is answered with the title. *)
Theorem getLinkCallback_without_placeholder
    (this : Editor) (title : string)
    (Htitle : linkTitle (state this) = Some title)
    (Hnonempty : title ≠ "")
    (Habsent : ∀ left right, title ≠ left +:+ UrlPlaceholder +:+ right) :
  ∃ callback, getLinkCallback this = Some callback ∧ ∀ url, callback url = title.
Proof.
  unfold getLinkCallback. cbv zeta. rewrite Htitle.
  rewrite (truthy_Some title) by done. change (JS.str (Some title)) with title. unfold indexOf.
  destruct (Strings.String.index 0 UrlPlaceholder title) as [position|] eqn:Hindex.
  - destruct (Habsent _ _ (occurrence_split title UrlPlaceholder position
                             (Strings.String.index_correct1 _ _ _ _ Hindex))).
  - cbn. by eexists.
Qed.

End LinkCallback.

Lemma getLinkCallback_first_occurrence_witness :
  ∃ (position : nat) (left right : string) (callback : string → string),
    getLinkCallback (Scenario.site_component (Some "Open $url$ now")) = Some callback
    ∧ indexOf "Open $url$ now" "$url$" = Z.of_nat position
    ∧ left = Strings.String.substring 0 position "Open $url$ now"
    ∧ "Open $url$ now" = left +:+ "$url$" +:+ right
    ∧ (∀ earlier, earlier < position →
         Strings.String.substring earlier (Strings.String.length "$url$") "Open $url$ now"
         ≠ "$url$")
    ∧ ∀ url, callback url = left +:+ url +:+ right.
Proof.
  apply (getLinkCallback_first_occurrence (imports := Scenario.site_imports)
           (Scenario.site_component (Some "Open $url$ now")) "Open $url$ now").
  - reflexivity.
  - discriminate.
  - by vm_compute.
Defined.

Lemma getLinkCallback_without_placeholder_witness :
  ∃ callback,
    getLinkCallback (Scenario.site_component (Some "Open link")) = Some callback
    ∧ ∀ url, callback url = "Open link".
Proof.
  apply (getLinkCallback_without_placeholder (imports := Scenario.site_imports)
           (Scenario.site_component (Some "Open link")) "Open link").
  - reflexivity.
  - discriminate.
  - apply index_None_no_occurrence; [by vm_compute|discriminate].
Defined.

Section Lifecycle.

Context {imports : Imports}.








(** X26. Disposing needs an editor: on a component that was constructed
    and never mounted, and on a component that has just been unmounted,
    [componentWillUnmount] and [componentWillUpdate] throw a [TypeError]. *)
Theorem dispose_needs_editor :
  (∀ (p : EditorProps) (g : Globals),
     componentWillUnmount (constructor p) g = JS.Throw JS.TypeError
     ∧ componentWillUpdate (constructor p) g = JS.Throw JS.TypeError)
  ∧ (∀ (this this' : Editor) (g g' : Globals),
       componentWillUnmount this g = JS.Return (this', g') →
       componentWillUnmount this' g' = JS.Throw JS.TypeError
       ∧ componentWillUpdate this' g' = JS.Throw JS.TypeError).
Proof.
  split; [done|].
  intros this this' g g' Hunmount.
  unfold componentWillUnmount, componentWillUpdate, disposeEditor in *.
  destruct (editor this); [|done]. injection Hunmount as <- <-. done.
Qed.


End Lifecycle.



Lemma dispose_needs_editor_witness :
  let mounted := initEditor (Scenario.site_component None) Scenario.site_start in
  ∃ this' g',
    componentWillUnmount mounted.1 mounted.2 = JS.Return (this', g')
    ∧ componentWillUnmount this' g' = JS.Throw JS.TypeError
    ∧ componentWillUpdate this' g' = JS.Throw JS.TypeError.
Proof.
  cbv zeta. eexists _, _. split; [reflexivity|].
  refine (proj2 (dispose_needs_editor (imports := Scenario.site_imports))
            (initEditor (Scenario.site_component None) Scenario.site_start).1 _
            (initEditor (Scenario.site_component None) Scenario.site_start).2 _ _).
  reflexivity.
Defined.

End SampleSiteFacts.
